(** * Dad Joke MCP server: the prompt catalog and the two prompt handlers

    A shallow embedding of [src/server.py]: the module-level table
    [JOKE_STYLES], the handlers [list_prompts] and [get_prompt], the
    helpers [log_request] and [log_response] they call, and the start-up
    code [setup_logging], [run_server] and [main] with the settings of
    [src/config.py] it reads.

    Conventions of the embedding.
    - A Python [str] is a [string]; a character is a code point below 256,
      and on that range [str.lower] is the function [lower] below.
    - [dict[str, str] | None] is [option (gmap string string)]: the value
      type of the dictionary excludes [None], so an argument that is "null"
      is an argument whose key is absent.
    - [JOKE_STYLES] is an association list: Python dictionaries keep the
      order of their literal, and [list_prompts] prints the keys in that
      order.
    - The handlers log, draw a random request id and read the clock. These
      effects are threaded through a state and exception monad [M] over a
      [World]; a raised exception keeps the log written so far. *)

From Stdlib Require Import String Ascii List NArith ZArith Bool DecimalString.
From stdpp Require Import base option gmap strings.
Import ListNotations.

Local Open Scope list_scope.
Local Open Scope string_scope.

(* stdpp keeps string concatenation folded; the proofs below compute with it. *)
#[local] Arguments String.append : simpl nomatch.

(** ** Strings *)

Module Str.

(** [str.lower] on one code point below 256: the ASCII capitals and the
    Latin-1 capitals (all of U+00C0..U+00DE but the multiplication sign
    U+00D7) move 32 places up, every other code point is kept. *)
Definition lower_char (c : ascii) : ascii :=
  let n := N_of_ascii c in
  if ((65 <=? n) && (n <=? 90)
      || (192 <=? n) && (n <=? 222) && negb (n =? 215))%N
  then ascii_of_N (n + 32)
  else c.

Fixpoint lower (s : string) : string :=
  match s with
  | EmptyString => EmptyString
  | String c s' => String (lower_char c) (lower s')
  end.

(** [sep.join(items)] *)
Fixpoint join (sep : string) (items : list string) : string :=
  match items with
  | [] => ""
  | [x] => x
  | x :: rest => x ++ sep ++ join sep rest
  end.

(** [needle in hay] on strings, and [hay.startswith(needle)] *)
Definition startswith (hay needle : string) : bool := String.prefix needle hay.

Fixpoint contains (hay needle : string) : bool :=
  startswith hay needle
  || match hay with
     | EmptyString => false
     | String _ hay' => contains hay' needle
     end.

(** The declarative reading of [needle in hay]. *)
Definition occurs_in (needle hay : string) : Prop :=
  exists pre post, hay = pre ++ needle ++ post.

Definition is_brace (c : ascii) : bool :=
  (Ascii.eqb c "{" || Ascii.eqb c "}")%char.

Fixpoint brace_free (s : string) : bool :=
  match s with
  | EmptyString => true
  | String c s' => negb (is_brace c) && brace_free s'
  end.

End Str.

(** ** Exceptions *)

Inductive exn : Type :=
| ValueError (msg : string)
| KeyError (key : string)
| IndexError
| TypeError
| OutsideFragment.

(** ** [str.format] with keyword arguments

    The scanner follows CPython's: literal text up to a brace, [{{] and
    [}}] as escaped braces, [{name}] as a replacement field, and the three
    [ValueError]s for a brace left alone. Fields are evaluated from left to
    right as they are met, so the first error in reading order is the one
    raised. The fragment modelled is literal text, escapes and plain named
    fields: a field with a conversion, a format specification, an attribute
    or an index is reported as [OutsideFragment]. *)

Module Format.

Inductive piece : Type :=
| Lit (c : ascii)
| Field (name : string)
| Malformed (msg : string).

Inductive scan : Type :=
| Text
| Opened
| Named (acc : string)
| Closed.

Definition snoc (s : string) (c : ascii) : string := s ++ String c "".

Fixpoint pieces_from (st : scan) (s : string) : list piece :=
  match s with
  | EmptyString =>
      match st with
      | Text => []
      | Opened => [Malformed "Single '{' encountered in format string"]
      | Named _ => [Malformed "expected '}' before end of string"]
      | Closed => [Malformed "Single '}' encountered in format string"]
      end
  | String c s' =>
      match st with
      | Text =>
          if Ascii.eqb c "{" then pieces_from Opened s'
          else if Ascii.eqb c "}" then pieces_from Closed s'
          else Lit c :: pieces_from Text s'
      | Opened =>
          if Ascii.eqb c "{" then Lit c :: pieces_from Text s'
          else if Ascii.eqb c "}" then Field "" :: pieces_from Text s'
          else pieces_from (Named (String c "")) s'
      | Named acc =>
          if Ascii.eqb c "}" then Field acc :: pieces_from Text s'
          else pieces_from (Named (snoc acc c)) s'
      | Closed =>
          if Ascii.eqb c "}" then Lit c :: pieces_from Text s'
          else [Malformed "Single '}' encountered in format string"]
      end
  end.

Definition pieces (template : string) : list piece := pieces_from Text template.

(** The replacement fields of a template, in order. *)
Fixpoint slots (ps : list piece) : list string :=
  match ps with
  | [] => []
  | Field name :: ps' => name :: slots ps'
  | _ :: ps' => slots ps'
  end.

Fixpoint well_formed (ps : list piece) : bool :=
  match ps with
  | [] => true
  | Malformed _ :: _ => false
  | _ :: ps' => well_formed ps'
  end.

Definition is_special (c : ascii) : bool :=
  (Ascii.eqb c "!" || Ascii.eqb c ":" || Ascii.eqb c "." || Ascii.eqb c "["
   || Ascii.eqb c "{")%char.

Definition is_digit (c : ascii) : bool :=
  let n := N_of_ascii c in (48 <=? n)%N && (n <=? 57)%N.

Fixpoint existsb_char (p : ascii -> bool) (s : string) : bool :=
  match s with
  | EmptyString => false
  | String c s' => p c || existsb_char p s'
  end.

Fixpoint kwarg (name : string) (kwargs : list (string * string)) : option string :=
  match kwargs with
  | [] => None
  | (k, v) :: rest => if String.eqb k name then Some v else kwarg name rest
  end.

(** The value of one replacement field. No positional argument is ever
    passed, so an empty or numeric field name is out of range. *)
Definition field_value (name : string) (kwargs : list (string * string))
  : exn + string :=
  if existsb_char is_special name then inl OutsideFragment
  else if negb (existsb_char (fun c => negb (is_digit c)) name) then inl IndexError
  else match kwarg name kwargs with
       | Some v => inr v
       | None => inl (KeyError name)
       end.

Fixpoint render (ps : list piece) (kwargs : list (string * string))
  : exn + string :=
  match ps with
  | [] => inr ""
  | Lit c :: ps' =>
      match render ps' kwargs with
      | inr out => inr (String c out)
      | inl e => inl e
      end
  | Field name :: ps' =>
      match field_value name kwargs with
      | inl e => inl e
      | inr v =>
          match render ps' kwargs with
          | inr out => inr (v ++ out)
          | inl e => inl e
          end
      end
  | Malformed msg :: _ => inl (ValueError msg)
  end.

(** [template.format(k1=v1, ...)], the keyword arguments as a list of pairs *)
Definition format (template : string) (kwargs : list (string * string))
  : exn + string :=
  render (pieces template) kwargs.

End Format.

(** ** The style catalog *)

(** [JOKE_STYLES], in the order of the dictionary literal. *)
Definition JOKE_STYLES : list (string * string) :=
  [
    ("pun",
     "You are an expert comedian specializing in puns and wordplay. Create a clever pun-based dad joke about {topic} that plays on multiple meanings of words. The joke should be groan-worthy but clever, appropriate for all ages.");
    ("wordplay",
     "You are a master of linguistic humor and wordplay. Create a dad joke about {topic} that uses creative word combinations, homophones, or unexpected word associations. Keep it family-friendly and punny.");
    ("observational",
     "You are a comedian skilled in observational humor. Create a dad joke about {topic} that points out something funny or absurd about everyday situations. Make it relatable and wholesome.");
    ("anti-humor",
     "You are a comedian who specializes in anti-humor and anti-jokes. Create a dad joke about {topic} that subverts expectations with an unexpectedly literal or mundane punchline. The humor comes from the lack of a traditional punchline.");
    ("question-answer",
     "You are an expert at question-and-answer style dad jokes. Create a dad joke about {topic} in the classic 'Why did the X...? Because...' or 'What do you call...?' format. Make it punny and groan-inducing.");
    ("one-liner",
     "You are a master of concise one-liner jokes. Create a short, punchy dad joke about {topic} that delivers the humor in a single sentence. Focus on wordplay or unexpected twists.");
    ("knock-knock",
     "You are skilled at creating knock-knock jokes. Create a knock-knock joke about {topic} that uses clever wordplay. Follow the classic format: 'Knock knock. Who's there? [X]. [X] who? [Punchline].'");
    ("classic",
     "You are an expert comedian skilled with puns and dad jokes. Create a joke about {topic} that is appropriate for a workplace. Use classic dad joke style with groan-worthy puns and wholesome humor.")
  ].

(** [JOKE_STYLES.keys()] *)
Definition keys (d : list (string * string)) : list string := map fst d.

(** [d.get(key)]: the first entry with that key. The literal repeats no
    key (see [JOKE_STYLES_keys_NoDup]), so this is the dictionary's entry. *)
Fixpoint lookup_style (key : string) (d : list (string * string)) : option string :=
  match d with
  | [] => None
  | (k, v) :: rest => if String.eqb k key then Some v else lookup_style key rest
  end.

(** [key in d] *)
Definition is_style (key : string) (d : list (string * string)) : bool :=
  match lookup_style key d with
  | Some _ => true
  | None => false
  end.

(** ** The protocol types the handlers build ([mcp.types]) *)

Record PromptArgument : Type := mkPromptArgument {
  arg_name : string;
  arg_description : string;
  arg_required : bool
}.

Record Prompt : Type := mkPrompt {
  prompt_name : string;
  prompt_description : string;
  prompt_arguments : list PromptArgument
}.

Record TextContent : Type := mkTextContent {
  content_type : string;
  content_text : string
}.

Record PromptMessage : Type := mkPromptMessage {
  message_role : string;
  message_content : TextContent
}.

Record GetPromptResult : Type := mkGetPromptResult {
  result_description : string;
  result_messages : list PromptMessage
}.

(** ** The world of a handler: settings, randomness, clock and log *)

Inductive level : Type := INFO | WARNING | ERROR.

(** The values passed as [extra] fields of a log call. *)
Inductive value : Type :=
| VStr (s : string)
| VInt (n : nat)
| VStrs (l : list string)
| VEmptyDict
| VArguments (arguments : option (gmap string string))
| VRequest (name : string) (arguments : option (gmap string string))
| VPrompts (prompts : list Prompt)
| VResult (result : GetPromptResult).

Record LogRecord : Type := mkLogRecord {
  log_level : level;
  log_message : string;
  log_extra : list (string * value)
}.

(** The two fields of [config.Settings] the handlers read. *)
Record Settings : Type := mkSettings {
  log_requests : bool;
  log_responses : bool
}.

(** [uuid_source n] is the n-th value [uuid.uuid4()] returns and
    [clock_source n] the n-th value of [datetime.utcnow().isoformat()]. *)
Record World : Type := mkWorld {
  settings : Settings;
  uuid_source : nat -> string;
  clock_source : nat -> string;
  uuids_drawn : nat;
  clock_reads : nat;
  records : list LogRecord
}.

Inductive outcome (A : Type) : Type :=
| Return (a : A)
| Raise (e : exn).

Arguments Return {A} a.
Arguments Raise {A} e.

Definition M (A : Type) : Type := World -> outcome A * World.

Definition ret {A : Type} (a : A) : M A := fun w => (Return a, w).

Definition raise {A : Type} (e : exn) : M A := fun w => (Raise e, w).

Definition bind {A B : Type} (k : A -> M B) (m : M A) : M B :=
  fun w =>
    match m w with
    | (Return a, w') => k a w'
    | (Raise e, w') => (Raise e, w')
    end.

(** stdpp's monad notations: [x ← m; k] and [m;; k]. *)
#[global] Instance M_ret : MRet M := @ret.
#[global] Instance M_bind : MBind M := @bind.

(** Lifting of a pure computation that may raise, such as [str.format]. *)
Definition lift {A : Type} (r : exn + A) : M A :=
  match r with
  | inr a => ret a
  | inl e => raise e
  end.

(** [str(uuid.uuid4())] *)
Definition uuid4 : M string :=
  fun w =>
    (Return (uuid_source w (uuids_drawn w)),
     mkWorld (settings w) (uuid_source w) (clock_source w)
       (S (uuids_drawn w)) (clock_reads w) (records w)).

(** [datetime.utcnow().isoformat()] *)
Definition utcnow : M string :=
  fun w =>
    (Return (clock_source w (clock_reads w)),
     mkWorld (settings w) (uuid_source w) (clock_source w)
       (uuids_drawn w) (S (clock_reads w)) (records w)).

Definition get_settings : M Settings := fun w => (Return (settings w), w).

(** [logger.info], [logger.warning] and [logger.error]: the call is
    recorded; which handlers print it is the logging library's matter. *)
Definition logger_log (l : level) (msg : string) (extra : list (string * value))
  : M unit :=
  fun w =>
    (Return tt,
     mkWorld (settings w) (uuid_source w) (clock_source w)
       (uuids_drawn w) (clock_reads w)
       (records w ++ [mkLogRecord l msg extra])%list).

Definition logger_info := logger_log INFO.
Definition logger_warning := logger_log WARNING.
Definition logger_error := logger_log ERROR.

(** What a handler hands back to its caller, and the log it leaves. *)
Definition returned {A : Type} (m : M A) (w : World) : outcome A := fst (m w).
Definition logged {A : Type} (m : M A) (w : World) : list LogRecord :=
  records (snd (m w)).

(** ** The handlers *)

Definition log_request (request_id request_type : string) (data : value) : M unit :=
  s ← get_settings;
  if log_requests s then
    timestamp ← utcnow;
    logger_info "Incoming MCP request"
      [("request_id", VStr request_id);
       ("request_type", VStr request_type);
       ("request_data", data);
       ("timestamp", VStr timestamp)]
  else ret tt.

Definition log_response (request_id request_type : string) (response : value) : M unit :=
  s ← get_settings;
  if log_responses s then
    timestamp ← utcnow;
    logger_info "Outgoing MCP response"
      [("request_id", VStr request_id);
       ("request_type", VStr request_type);
       ("response_data", response);
       ("timestamp", VStr timestamp)]
  else ret tt.

Definition list_prompts : M (list Prompt) :=
  request_id ← uuid4;
  log_request request_id "list_prompts" VEmptyDict;;
  let prompts :=
    [mkPrompt "dad_joke"
       "Generate a dad joke prompt about any topic. Supports multiple joke styles."
       [mkPromptArgument "topic" "The topic or subject for the dad joke" true;
        mkPromptArgument "style"
          ("The style of dad joke. Options: "
           ++ Str.join ", " (keys JOKE_STYLES) ++ ". Default: classic")
          false]] in
  log_response request_id "list_prompts" (VPrompts prompts);;
  logger_info "Listed available prompts"
    [("request_id", VStr request_id);
     ("prompt_count", VInt (List.length prompts));
     ("prompt_names", VStrs (map prompt_name prompts))];;
  ret prompts.

(** [not arguments]: [None] and the empty dictionary are falsy. *)
Definition falsy (arguments : option (gmap string string)) : bool :=
  match arguments with
  | None => true
  | Some d => bool_decide (d = ∅)
  end.

(** [key in arguments]; asked of [None] it is a [TypeError]. *)
Definition has_key (key : string) (arguments : option (gmap string string))
  : exn + bool :=
  match arguments with
  | None => inl TypeError
  | Some d => inr (bool_decide (is_Some (d !! key)))
  end.

(** [arguments[key]] *)
Definition getitem (arguments : option (gmap string string)) (key : string)
  : exn + string :=
  match arguments with
  | None => inl TypeError
  | Some d =>
      match d !! key with
      | Some v => inr v
      | None => inl (KeyError key)
      end
  end.

(** [arguments.get(key, default)] *)
Definition get_default (arguments : option (gmap string string))
  (key default : string) : exn + string :=
  match arguments with
  | None => inl TypeError
  | Some d => inr (from_option id default (d !! key))
  end.

Definition get_prompt (name : string) (arguments : option (gmap string string))
  : M GetPromptResult :=
  request_id ← uuid4;
  log_request request_id "get_prompt" (VRequest name arguments);;
  if negb (String.eqb name "dad_joke") then
    let error_msg := "Unknown prompt: " ++ name in
    logger_error error_msg
      [("request_id", VStr request_id); ("prompt_name", VStr name)];;
    raise (ValueError error_msg)
  else
    (* [not arguments or "topic" not in arguments], the right operand
       evaluated only when the left one is false *)
    missing ← (if falsy arguments then ret true
                else present ← lift (has_key "topic" arguments);
                     ret (negb present));
    if (missing : bool) then
      let error_msg := "Missing required argument: topic" in
      logger_error error_msg
        [("request_id", VStr request_id); ("arguments", VArguments arguments)];;
      raise (ValueError error_msg)
    else
      topic ← lift (getitem arguments "topic");
      requested ← lift (get_default arguments "style" "classic");
      let style := Str.lower requested in
      (* Validate style *)
      style ← (if negb (is_style style JOKE_STYLES) then
                  logger_warning
                    ("Unknown joke style '" ++ style ++ "', falling back to 'classic'")
                    [("request_id", VStr request_id);
                     ("requested_style", VStr style);
                     ("available_styles", VStrs (keys JOKE_STYLES))];;
                  ret "classic"
                else ret style);
      (* Generate the prompt text *)
      template ← lift (match lookup_style style JOKE_STYLES with
                        | Some t => inr t
                        | None => inl (KeyError style)
                        end);
      prompt_text ← lift (Format.format template [("topic", topic)]);
      let result :=
        mkGetPromptResult
          ("Dad joke prompt about " ++ topic ++ " in " ++ style ++ " style")
          [mkPromptMessage "user" (mkTextContent "text" prompt_text)] in
      log_response request_id "get_prompt" (VResult result);;
      logger_info "Generated dad joke prompt"
        [("request_id", VStr request_id);
         ("topic", VStr topic);
         ("style", VStr style);
         ("prompt_length", VInt (String.length prompt_text))];;
      ret result.

(** The two hard failures of the specification, as the exceptions the
    handler raises for them. *)
Definition UnknownOperation (name : string) : exn :=
  ValueError ("Unknown prompt: " ++ name).

Definition MissingArgument : exn :=
  ValueError "Missing required argument: topic".

(** ** A concrete world and concrete argument dictionaries, for examples *)

Definition quiet : Settings := mkSettings false false.
Definition verbose : Settings := mkSettings true true.

Definition world0 (s : Settings) : World :=
  mkWorld s (fun _ => "00000000-0000-4000-8000-000000000000")
    (fun _ => "2024-01-01T00:00:00") 0 0 [].

Definition args_topic (topic : string) : option (gmap string string) :=
  Some {[ "topic" := topic ]}.

Definition args_topic_style (topic style : string) : option (gmap string string) :=
  Some (<[ "style" := style ]> {[ "topic" := topic ]}).

(** ** What the handlers return, with the effects erased

    [get_prompt] returns the same value in every world: the request id, the
    clock and the settings only reach the log. [outcome_of] is that value,
    read off the handler branch by branch, and [get_prompt_returns] proves
    the handler returns it. *)

(** Lines 195 to 207 of the handler: the style after normalisation and
    fallback. *)
Definition resolve_style (requested : string) : string :=
  let style := Str.lower requested in
  if is_style style JOKE_STYLES then style else "classic".

Definition describe (topic style : string) : string :=
  "Dad joke prompt about " ++ topic ++ " in " ++ style ++ " style".

Definition user_message (text : string) : PromptMessage :=
  mkPromptMessage "user" (mkTextContent "text" text).

Definition outcome_of (name : string) (arguments : option (gmap string string))
  : outcome GetPromptResult :=
  if negb (String.eqb name "dad_joke") then Raise (UnknownOperation name)
  else
    match arguments with
    | None => Raise MissingArgument
    | Some d =>
        match d !! "topic" with
        | None => Raise MissingArgument
        | Some topic =>
            let style := resolve_style (from_option id "classic" (d !! "style")) in
            match lookup_style style JOKE_STYLES with
            | None => Raise (KeyError style)
            | Some template =>
                match Format.format template [("topic", topic)] with
                | inl e => Raise e
                | inr text =>
                    Return (mkGetPromptResult (describe topic style)
                              [user_message text])
                end
            end
        end
    end.

(** [m] hands back [r] whatever the world it runs in. *)
Definition always {A : Type} (m : M A) (r : outcome A) : Prop :=
  forall w, returned m w = r.

(** Entries of an argument dictionary, [None] having none. *)
Definition entry (arguments : option (gmap string string)) (key : string)
  : option string :=
  match arguments with
  | None => None
  | Some d => d !! key
  end.

(** The text of the single message of a result, if it has exactly one. *)
Definition text_of (r : GetPromptResult) : option string :=
  match result_messages r with
  | [m] => Some (content_text (message_content m))
  | _ => None
  end.

(** The two halves of a template around its first brace, the seven
    characters of the slot left out. *)
Fixpoint before_brace (s : string) : string :=
  match s with
  | EmptyString => EmptyString
  | String c s' => if Str.is_brace c then EmptyString else String c (before_brace s')
  end.

Fixpoint from_brace (s : string) : string :=
  match s with
  | EmptyString => EmptyString
  | String c s' => if Str.is_brace c then s else from_brace s'
  end.

Definition after_slot (s : string) : string :=
  let rest := from_brace s in
  String.substring 7 (String.length rest - 7) rest.

(** The facts about one catalog entry that the handler relies on. *)
Definition entry_shape (key template : string) : Prop :=
  Str.lower key = key
  /\ template = before_brace template ++ "{topic}" ++ after_slot template
  /\ Str.brace_free (before_brace template) = true
  /\ Str.brace_free (after_slot template) = true
  /\ before_brace template <> "".

(** ** What the handlers write to the log

    The records one call appends, read off the handlers branch by branch
    like [outcome_of]; [get_prompt_runs] and [list_prompts_runs] prove that
    the handlers leave exactly this log and this world. *)

Definition ticks (b : bool) : nat := if b then 1 else 0.

(** The record of [log_request], if the settings ask for one. *)
Definition incoming (s : Settings) (request_id request_type : string)
  (data : value) (timestamp : string) : list LogRecord :=
  if log_requests s then
    [mkLogRecord INFO "Incoming MCP request"
       [("request_id", VStr request_id);
        ("request_type", VStr request_type);
        ("request_data", data);
        ("timestamp", VStr timestamp)]]
  else [].

(** The record of [log_response], if the settings ask for one. *)
Definition outgoing (s : Settings) (request_id request_type : string)
  (response : value) (timestamp : string) : list LogRecord :=
  if log_responses s then
    [mkLogRecord INFO "Outgoing MCP response"
       [("request_id", VStr request_id);
        ("request_type", VStr request_type);
        ("response_data", response);
        ("timestamp", VStr timestamp)]]
  else [].

(** The other records of [get_prompt]. *)
Definition unknown_prompt_record (request_id name : string) : LogRecord :=
  mkLogRecord ERROR ("Unknown prompt: " ++ name)
    [("request_id", VStr request_id); ("prompt_name", VStr name)].

Definition missing_topic_record (request_id : string)
  (arguments : option (gmap string string)) : LogRecord :=
  mkLogRecord ERROR "Missing required argument: topic"
    [("request_id", VStr request_id); ("arguments", VArguments arguments)].

Definition unknown_style_record (request_id style : string) : LogRecord :=
  mkLogRecord WARNING
    ("Unknown joke style '" ++ style ++ "', falling back to 'classic'")
    [("request_id", VStr request_id);
     ("requested_style", VStr style);
     ("available_styles", VStrs (keys JOKE_STYLES))].

Definition generated_record (request_id topic style : string) (prompt_length : nat)
  : LogRecord :=
  mkLogRecord INFO "Generated dad joke prompt"
    [("request_id", VStr request_id);
     ("topic", VStr topic);
     ("style", VStr style);
     ("prompt_length", VInt prompt_length)].

(** The records [get_prompt] appends when it starts in [w]. *)
Definition trace_of (w : World) (name : string)
  (arguments : option (gmap string string)) : list LogRecord :=
  let s := settings w in
  let request_id := uuid_source w (uuids_drawn w) in
  (incoming s request_id "get_prompt" (VRequest name arguments)
     (clock_source w (clock_reads w))
   ++
   if negb (String.eqb name "dad_joke") then [unknown_prompt_record request_id name]
   else
     match entry arguments "topic" with
     | None => [missing_topic_record request_id arguments]
     | Some topic =>
         let requested :=
           Str.lower (from_option id "classic" (entry arguments "style")) in
         let style := if is_style requested JOKE_STYLES then requested else "classic" in
         (if is_style requested JOKE_STYLES then []
          else [unknown_style_record request_id requested])
         ++
         match lookup_style style JOKE_STYLES with
         | None => []
         | Some template =>
             match Format.format template [("topic", topic)] with
             | inl _ => []
             | inr prompt_text =>
                 outgoing s request_id "get_prompt"
                   (VResult
                      (mkGetPromptResult
                         ("Dad joke prompt about " ++ topic ++ " in " ++ style ++ " style")
                         [mkPromptMessage "user" (mkTextContent "text" prompt_text)]))
                   (clock_source w (clock_reads w + ticks (log_requests s)))
                 ++
                 [generated_record request_id topic style (String.length prompt_text)]
             end
         end
     end)%list.

(** The clock reads of one call of [get_prompt]: one for the request
    record, one for the response record of a call that returns. *)
Definition clock_ticks (s : Settings) (name : string)
  (arguments : option (gmap string string)) : nat :=
  ticks (log_requests s)
  + match outcome_of name arguments with
    | Return _ => ticks (log_responses s)
    | Raise _ => 0
    end.

(** The prompts [list_prompts] builds. *)
Definition prompts : list Prompt :=
  [mkPrompt "dad_joke"
     "Generate a dad joke prompt about any topic. Supports multiple joke styles."
     [mkPromptArgument "topic" "The topic or subject for the dad joke" true;
      mkPromptArgument "style"
        ("The style of dad joke. Options: "
         ++ Str.join ", " (keys JOKE_STYLES) ++ ". Default: classic")
        false]].

Definition listed_record (request_id : string) (ps : list Prompt) : LogRecord :=
  mkLogRecord INFO "Listed available prompts"
    [("request_id", VStr request_id);
     ("prompt_count", VInt (List.length ps));
     ("prompt_names", VStrs (map prompt_name ps))].

(** The records [list_prompts] appends when it starts in [w]. *)
Definition list_trace (w : World) : list LogRecord :=
  let s := settings w in
  let request_id := uuid_source w (uuids_drawn w) in
  (incoming s request_id "list_prompts" VEmptyDict (clock_source w (clock_reads w))
   ++ outgoing s request_id "list_prompts" (VPrompts prompts)
        (clock_source w (clock_reads w + ticks (log_requests s)))
   ++ [listed_record request_id prompts])%list.

(** Reading an [extra] field of a record. *)
Fixpoint field (key : string) (extra : list (string * value)) : option value :=
  match extra with
  | [] => None
  | (k, v) :: rest => if String.eqb k key then Some v else field key rest
  end.

Definition is_error (r : LogRecord) : bool :=
  match log_level r with ERROR => true | _ => false end.

Definition is_warning (r : LogRecord) : bool :=
  match log_level r with WARNING => true | _ => false end.

(** The records of [log_request] and [log_response], which carry the raw
    payloads and a timestamp. *)
Definition is_payload (r : LogRecord) : bool :=
  String.eqb (log_message r) "Incoming MCP request"
  || String.eqb (log_message r) "Outgoing MCP response".

(** The records a computation adds to the log it finds. *)
Definition appended {A : Type} (m : M A) (w : World) : list LogRecord :=
  skipn (List.length (records w)) (logged m w).

(** The request id of a call that starts in [w]: the next value of
    [uuid.uuid4()]. *)
Definition next_request_id (w : World) : string := uuid_source w (uuids_drawn w).

Definition has_request_id (request_id : string) (r : LogRecord) : Prop :=
  field "request_id" (log_extra r) = Some (VStr request_id).

Definition is_incoming (r : LogRecord) : bool :=
  String.eqb (log_message r) "Incoming MCP request".

Definition is_outgoing (r : LogRecord) : bool :=
  String.eqb (log_message r) "Outgoing MCP response".

(** Two strings part ways: at some position both have a character and the
    two characters differ. *)
Fixpoint diverge (a b : string) : bool :=
  match a, b with
  | String x a', String y b' => if Ascii.eqb x y then diverge a' b' else true
  | _, _ => false
  end.

(** ** The rest of the settings ([config.Settings]) *)

Module Config.

(** The values of the two [Literal] fields. *)
Inductive LogLevel : Type := DEBUG | INFO | WARNING | ERROR | CRITICAL.
Inductive LogFormat : Type := json | text.

(** The fields the handlers do not read; [log_requests] and
    [log_responses] are in [Settings]. *)
Record ServerSettings : Type := mkServerSettings {
  host : string;
  port : Z;
  log_level : LogLevel;
  log_format : LogFormat;
  log_file : string;
  log_to_file : bool
}.

(** The string a [LogLevel] is. *)
Definition level_name (l : LogLevel) : string :=
  match l with
  | DEBUG => "DEBUG"
  | INFO => "INFO"
  | WARNING => "WARNING"
  | ERROR => "ERROR"
  | CRITICAL => "CRITICAL"
  end.

Definition format_name (f : LogFormat) : string :=
  match f with
  | json => "json"
  | text => "text"
  end.

(** [getattr(logging, self.log_level)], with the constants of [logging]. *)
Definition log_level_int (s : ServerSettings) : Z :=
  match log_level s with
  | DEBUG => 10
  | INFO => 20
  | WARNING => 30
  | ERROR => 40
  | CRITICAL => 50
  end.

End Config.

(** ** Start-up: [setup_logging], [run_server] and [main] *)

Module Startup.

(** *** [setup_logging] *)

Inductive Formatter : Type :=
| JsonFormatter (fmt : string) (rename_fields : list (string * string))
| PlainFormatter (fmt : string).

Inductive Target : Type :=
| Stdout
| LogFile (path : string).

(** A handler after its [setLevel] and [setFormatter]. *)
Record Handler : Type := mkHandler {
  handler_target : Target;
  handler_level : Z;
  handler_formatter : Formatter
}.

(** The level and the handlers of the logger "dad_joke_mcp". *)
Record Logger : Type := mkLogger {
  logger_level : Z;
  logger_handlers : list Handler
}.

(** The calls that reach the file system. *)
Inductive FsCall : Type :=
| makedirs (path : string)
| open_append (path : string).

(** What [setup_logging] leaves: the file-system calls made, in order, the
    logger as it is then, and whether the function returned it or a call
    raised. *)
Inductive ended : Type :=
| Configured
| OSError (call : FsCall).

Record Setup : Type := mkSetup {
  setup_calls : list FsCall;
  setup_logger : Logger;
  setup_end : ended
}.

Section SetupLogging.

(** [os.path.dirname], which depends on the platform, and the file system:
    [fs_accepts call] tells whether the call succeeds. *)
Variable dirname : string -> string.
Variable fs_accepts : FsCall -> bool.

Definition formatter_of (s : Config.ServerSettings) : Formatter :=
  match Config.log_format s with
  | Config.json =>
      JsonFormatter "%(asctime)s %(name)s %(levelname)s %(message)s"
        [("asctime", "timestamp"); ("levelname", "level"); ("name", "logger")]
  | Config.text =>
      PlainFormatter "%(asctime)s - %(name)s - %(levelname)s - %(message)s"
  end.

(** [existing] is the logger [logging.getLogger] hands out, with whatever
    level and handlers it has. *)
Definition setup_logging (s : Config.ServerSettings) (existing : Logger) : Setup :=
  (* logger.setLevel(settings.log_level_int) *)
  let logger := mkLogger (Config.log_level_int s) (logger_handlers existing) in
  (* logger.handlers.clear() *)
  let logger := mkLogger (logger_level logger) [] in
  (* Console handler *)
  let console_handler := mkHandler Stdout (Config.log_level_int s) (formatter_of s) in
  let logger :=
    mkLogger (logger_level logger)
      (logger_handlers logger ++ [console_handler])%list in
  (* File handler (optional) *)
  if Config.log_to_file s then
    let dir := makedirs (dirname (Config.log_file s)) in
    if fs_accepts dir then
      let file := open_append (Config.log_file s) in
      if fs_accepts file then
        let file_handler :=
          mkHandler (LogFile (Config.log_file s)) (Config.log_level_int s) (formatter_of s) in
        mkSetup [dir; file]
          (mkLogger (logger_level logger)
             (logger_handlers logger ++ [file_handler])%list)
          Configured
      else mkSetup [dir; file] logger (OSError file)
    else mkSetup [dir] logger (OSError dir)
  else mkSetup [] logger Configured.

End SetupLogging.

(** *** [run_server] and [main] *)

(** The values passed as [extra] fields at start-up and shutdown. *)
Inductive datum : Type :=
| DStr (s : string)
| DInt (n : Z)
| DStrs (l : list string).

(** A call of the logger; [event_exc_info] is the argument [exc_info]. *)
Record Event : Type := mkEvent {
  event_level : level;
  event_message : string;
  event_extra : list (string * datum);
  event_exc_info : bool
}.

Inductive Endpoint : Type := handle_sse | handle_messages.

Record Route : Type := mkRoute {
  route_path : string;
  route_endpoint : Endpoint;
  route_methods : list string
}.

Record Starlette : Type := mkStarlette {
  app_debug : bool;
  app_routes : list Route
}.

Record UvicornConfig : Type := mkUvicornConfig {
  config_app : Starlette;
  config_host : string;
  config_port : Z;
  config_log_level : string
}.

(** How [await server.serve()] ends: it returns, or it raises
    [KeyboardInterrupt], an [Exception] of some type with some [str], or
    another [BaseException] such as [SystemExit]. *)
Inductive ending : Type :=
| Served
| KeyboardInterrupt
| Exception (type_name message : string)
| BaseException (type_name : string).

(** How [main] ends: it returns, [sys.exit(code)], or the exception it
    does not catch goes on. *)
Inductive exit : Type :=
| Returns
| SystemExit (code : Z)
| Propagates (type_name : string).

(** [str(n)] for an [int]. *)
Definition str_int (n : Z) : string := NilZero.string_of_int (Z.to_int n).

(** [settings.log_level == "DEBUG"] *)
Definition is_debug (l : Config.LogLevel) : bool :=
  match l with
  | Config.DEBUG => true
  | _ => false
  end.

Section Serving.

(** The server is uvicorn's: [serve config] is how serving that
    configuration ends. *)
Variable serve : UvicornConfig -> ending.

Definition run_server (s : Config.ServerSettings) (log : list Event)
  : ending * list Event :=
  let log :=
    (log ++ [mkEvent INFO "Starting Dad Joke MCP Server"
               [("version", DStr "1.0.0");
                ("host", DStr (Config.host s));
                ("port", DInt (Config.port s));
                ("log_level", DStr (Config.level_name (Config.log_level s)));
                ("log_format", DStr (Config.format_name (Config.log_format s)));
                ("available_styles", DStrs (keys JOKE_STYLES))]
               false])%list in
  let starlette_app :=
    mkStarlette (is_debug (Config.log_level s))
      [mkRoute "/messages" handle_sse ["GET"];
       mkRoute "/messages" handle_messages ["POST"]] in
  let log :=
    (log ++ [mkEvent INFO "Server started successfully"
               [("endpoint",
                 DStr ("http://" ++ Config.host s ++ ":" ++ str_int (Config.port s) ++ "/messages"));
                ("status", DStr "ready")]
               false])%list in
  let config :=
    mkUvicornConfig starlette_app (Config.host s) (Config.port s)
      (Str.lower (Config.level_name (Config.log_level s))) in
  (serve config, log).

Definition main (s : Config.ServerSettings) (log : list Event) : exit * list Event :=
  let complete := mkEvent INFO "Server shutdown complete" [] false in
  match run_server s log with
  | (Served, log) => (Returns, log ++ [complete])%list
  | (KeyboardInterrupt, log) =>
      (Returns,
       log ++ [mkEvent INFO "Server shutdown requested by user" [] false;
               complete])%list
  | (Exception type_name message, log) =>
      (SystemExit 1,
       log ++ [mkEvent ERROR "Server error"
                 [("error", DStr message); ("error_type", DStr type_name)]
                 true;
               complete])%list
  | (BaseException type_name, log) => (Propagates type_name, log ++ [complete])%list
  end.

End Serving.

Definition is_error_event (e : Event) : bool :=
  match event_level e with
  | ERROR => true
  | _ => false
  end.

End Startup.

(** ** Lemmas on the monad *)

Section Monad.
Context {A B : Type}.

Lemma always_ret (a : A) : always (ret a) (Return a).
Proof. intro w. reflexivity. Qed.

Lemma always_raise (e : exn) : always (@raise A e) (Raise e).
Proof. intro w. reflexivity. Qed.

Lemma always_bind (m : M A) (k : A -> M B) (a : A) (r : outcome B) :
  always m (Return a) -> always (k a) r -> always (m ≫= k) r.
Proof.
  intros Hm Hk w. unfold returned, mbind, M_bind, bind.
  specialize (Hm w). unfold returned in Hm.
  destruct (m w) as [[a' | e] w']; simpl in Hm; [| discriminate].
  injection Hm as ->. apply Hk.
Qed.

Lemma always_bind_raise (m : M A) (k : A -> M B) (e : exn) :
  always m (Raise e) -> always (m ≫= k) (Raise e).
Proof.
  intros Hm w. unfold returned, mbind, M_bind, bind.
  specialize (Hm w). unfold returned in Hm.
  destruct (m w) as [[a' | e'] w']; simpl in Hm; [discriminate |].
  injection Hm as ->. reflexivity.
Qed.

(** A step that cannot raise may hand back anything, as long as what
    follows does not depend on it. *)
Lemma always_bind_any (m : M A) (k : A -> M B) (r : outcome B) :
  (forall w, exists a w', m w = (Return a, w')) ->
  (forall a, always (k a) r) -> always (m ≫= k) r.
Proof.
  intros Hm Hk w. unfold returned, mbind, M_bind, bind.
  destruct (Hm w) as (a & w' & ->). apply Hk.
Qed.
End Monad.

Lemma always_lift {A : Type} (x : exn + A) :
  always (lift x) (match x with inr a => Return a | inl e => Raise e end).
Proof. intro w. destruct x; reflexivity. Qed.

Lemma uuid4_total : forall w, exists a w', uuid4 w = (Return a, w').
Proof. intro w. unfold uuid4. eauto. Qed.

Lemma logger_log_silent l msg extra : always (logger_log l msg extra) (Return tt).
Proof. intro w. reflexivity. Qed.

Lemma log_request_silent request_id request_type data :
  always (log_request request_id request_type data) (Return tt).
Proof.
  intro w. unfold returned, log_request, get_settings, mbind, M_bind, bind.
  destruct (log_requests (settings w)); reflexivity.
Qed.

Lemma log_response_silent request_id request_type response :
  always (log_response request_id request_type response) (Return tt).
Proof.
  intro w. unfold returned, log_response, get_settings, mbind, M_bind, bind.
  destruct (log_responses (settings w)); reflexivity.
Qed.

Lemma list_prompts_returns :
  always list_prompts
    (Return
       [mkPrompt "dad_joke"
          "Generate a dad joke prompt about any topic. Supports multiple joke styles."
          [mkPromptArgument "topic" "The topic or subject for the dad joke" true;
           mkPromptArgument "style"
             ("The style of dad joke. Options: "
              ++ Str.join ", " (keys JOKE_STYLES) ++ ". Default: classic")
             false]]).
Proof.
  unfold list_prompts.
  apply always_bind_any; [apply uuid4_total | intro request_id].
  eapply always_bind; [apply log_request_silent |]. cbv zeta.
  eapply always_bind; [apply log_response_silent |].
  eapply always_bind; [apply logger_log_silent |].
  apply always_ret.
Qed.

Lemma is_style_lookup key :
  is_style key JOKE_STYLES = true -> exists t, lookup_style key JOKE_STYLES = Some t.
Proof. unfold is_style. destruct (lookup_style key JOKE_STYLES); [eauto | discriminate]. Qed.

(** The error branches log one record and raise. *)
Ltac log_then_raise :=
  cbv zeta; eapply always_bind; [apply logger_log_silent | apply always_raise].

(** The test of the topic key, once the lookup is known. *)
Ltac topic_test d Htopic :=
  eapply always_bind;
  [ eapply always_bind; [apply (always_lift (has_key "topic" (Some d))) |];
    simpl; rewrite Htopic; apply always_ret
  | ].

(** The end of the handler, from the lookup of the template of [style]
    on: a [KeyError] or an error of [str.format] is raised as it is, and
    otherwise the response is logged and returned. *)
Ltac generate style topic :=
  destruct (lookup_style style JOKE_STYLES) as [template |];
  [ eapply always_bind; [apply (always_lift (inr template)) |];
    pose proof (always_lift (Format.format template [("topic", topic)])) as Hformat;
    destruct (Format.format template [("topic", topic)]) as [e | text];
    [ eapply always_bind_raise; exact Hformat
    | eapply always_bind; [exact Hformat |];
      eapply always_bind; [apply log_response_silent |];
      eapply always_bind; [apply logger_log_silent |];
      apply always_ret ]
  | eapply always_bind_raise; apply (always_lift (inl (KeyError style))) ].

Lemma get_prompt_returns name arguments :
  always (get_prompt name arguments) (outcome_of name arguments).
Proof.
  unfold get_prompt, outcome_of.
  apply always_bind_any; [apply uuid4_total | intro request_id].
  eapply always_bind; [apply log_request_silent |].
  destruct (negb (String.eqb name "dad_joke")); [log_then_raise |].
  destruct arguments as [d |]; simpl falsy.
  2:{ eapply always_bind; [apply always_ret | log_then_raise]. }
  case_bool_decide as Hd.
  { subst d. rewrite lookup_empty.
    eapply always_bind; [apply always_ret | log_then_raise]. }
  destruct (d !! "topic") as [topic |] eqn:Htopic.
  2:{ topic_test d Htopic.
      rewrite bool_decide_eq_false_2 by (intros [? ?]; discriminate).
      simpl negb. cbv iota. log_then_raise. }
  topic_test d Htopic.
  rewrite bool_decide_eq_true_2 by eauto. simpl negb. cbv iota.
  cbn [getitem get_default]. rewrite Htopic.
  eapply always_bind; [apply (always_lift (inr topic)) |].
  eapply always_bind;
    [apply (always_lift (inr (from_option id "classic" (d !! "style")))) |].
  cbv zeta. unfold resolve_style.
  set (style := Str.lower (from_option id "classic" (d !! "style"))).
  destruct (is_style style JOKE_STYLES) eqn:Hstyle; simpl negb; cbv iota.
  - eapply always_bind; [apply always_ret |].
    generate style topic.
  - eapply always_bind;
      [eapply always_bind; [apply logger_log_silent | apply always_ret] |].
    generate "classic" topic.
Qed.

(** ** Lemmas on strings and on [str.format] *)

Lemma append_empty_r (s : string) : s ++ "" = s.
Proof. induction s as [| c s IH]; simpl; [reflexivity | now rewrite IH]. Qed.

Lemma not_brace (c : ascii) :
  negb (Str.is_brace c) = true ->
  Ascii.eqb c "{" = false /\ Ascii.eqb c "}" = false.
Proof.
  unfold Str.is_brace. intros H. apply negb_true_iff in H.
  apply orb_false_iff in H. exact H.
Qed.

Lemma render_text_prefix pre s kwargs :
  Str.brace_free pre = true ->
  Format.render (Format.pieces_from Format.Text (pre ++ s)) kwargs
  = match Format.render (Format.pieces_from Format.Text s) kwargs with
    | inr out => inr (pre ++ out)
    | inl e => inl e
    end.
Proof.
  induction pre as [| c pre IH]; intros Hfree.
  - simpl. destruct (Format.render _ kwargs); reflexivity.
  - simpl in Hfree. apply andb_true_iff in Hfree as [Hc Hpre].
    destruct (not_brace c Hc) as [Hopen Hclose].
    simpl. rewrite Hopen, Hclose. simpl. rewrite (IH Hpre).
    destruct (Format.render (Format.pieces_from Format.Text s) kwargs); reflexivity.
Qed.

Lemma render_text s kwargs :
  Str.brace_free s = true ->
  Format.render (Format.pieces_from Format.Text s) kwargs = inr s.
Proof.
  intros Hfree. pose proof (render_text_prefix s "" kwargs Hfree) as H.
  rewrite append_empty_r in H. simpl in H. rewrite append_empty_r in H. exact H.
Qed.

(** A template that is plain text around one [{topic}] slot formats to
    the same text with the topic in the place of the slot. The topic is
    copied, not scanned: braces inside it are harmless. *)
Lemma format_one_slot pre post topic :
  Str.brace_free pre = true -> Str.brace_free post = true ->
  Format.format (pre ++ "{topic}" ++ post) [("topic", topic)]
  = inr (pre ++ topic ++ post).
Proof.
  intros Hpre Hpost. unfold Format.format, Format.pieces.
  rewrite render_text_prefix by exact Hpre.
  change (Format.pieces_from Format.Text ("{topic}" ++ post))
    with (Format.Field "topic" :: Format.pieces_from Format.Text post).
  cbn [Format.render].
  change (Format.field_value "topic" [("topic", topic)]) with (@inr exn _ topic).
  cbv iota. rewrite render_text by exact Hpost. reflexivity.
Qed.

Lemma prefix_append p h :
  String.prefix p h = true -> exists rest, h = p ++ rest.
Proof.
  revert h. induction p as [| x p IH]; intros h H.
  - exists h. reflexivity.
  - destruct h as [| y h]; [discriminate |]. simpl in H.
    destruct (ascii_dec x y) as [-> |]; [| discriminate].
    destruct (IH h H) as [rest ->]. exists rest. reflexivity.
Qed.

Lemma contains_occurs hay needle :
  Str.contains hay needle = true -> Str.occurs_in needle hay.
Proof.
  induction hay as [| c hay IH]; cbn [Str.contains]; intros H;
    apply orb_true_iff in H as [H | H]; try discriminate.
  - apply prefix_append in H as [rest ->]. exists "", rest. reflexivity.
  - apply prefix_append in H as [rest ->]. exists "", rest. reflexivity.
  - destruct (IH H) as (pre & post & ->). exists (String c pre), post. reflexivity.
Qed.

(** ** Lemmas on the catalog *)

Lemma lookup_style_In key t d :
  lookup_style key d = Some t -> In (key, t) d.
Proof.
  induction d as [| [k v] d IH]; simpl; [discriminate |].
  destruct (String.eqb k key) eqn:Hk.
  - apply String.eqb_eq in Hk. intros [= ->]. left. now subst.
  - intros H. right. exact (IH H).
Qed.

Lemma catalog_shape key template :
  lookup_style key JOKE_STYLES = Some template -> entry_shape key template.
Proof.
  intros H. apply lookup_style_In in H. unfold JOKE_STYLES in H. simpl in H.
  repeat (destruct H as [H | H];
          [injection H as <- <-;
           repeat split; try (vm_compute; reflexivity); discriminate |]).
  destruct H.
Qed.

Lemma classic_in_catalog : is_style "classic" JOKE_STYLES = true.
Proof. reflexivity. Qed.

Lemma resolve_style_in_catalog requested :
  is_style (resolve_style requested) JOKE_STYLES = true.
Proof.
  unfold resolve_style.
  destruct (is_style (Str.lower requested) JOKE_STYLES) eqn:H;
    [exact H | exact classic_in_catalog].
Qed.

(** With a topic present the handler always returns, and the text is the
    template of the resolved style with the topic in its slot. *)
Lemma outcome_with_topic d topic :
  d !! "topic" = Some topic ->
  let style := resolve_style (from_option id "classic" (d !! "style")) in
  exists template,
    lookup_style style JOKE_STYLES = Some template
    /\ entry_shape style template
    /\ outcome_of "dad_joke" (Some d)
       = Return (mkGetPromptResult (describe topic style)
                   [user_message (before_brace template ++ topic
                                  ++ after_slot template)]).
Proof.
  intros Htopic style.
  destruct (is_style_lookup style (resolve_style_in_catalog _)) as [template Ht].
  exists template. pose proof (catalog_shape _ _ Ht) as Hshape.
  split; [exact Ht | split; [exact Hshape |]].
  destruct Hshape as (_ & Heq & Hpre & Hpost & _).
  unfold outcome_of. simpl negb. cbv iota. rewrite Htopic. fold style. rewrite Ht.
  rewrite Heq at 1. rewrite format_one_slot by assumption. reflexivity.
Qed.

Lemma format_catalog key template topic :
  lookup_style key JOKE_STYLES = Some template ->
  Format.format template [("topic", topic)]
  = inr (before_brace template ++ topic ++ after_slot template).
Proof.
  intros H. destruct (catalog_shape _ _ H) as (_ & Heq & Hpre & Hpost & _).
  rewrite Heq at 1. apply format_one_slot; assumption.
Qed.

Lemma outcome_of_entries name a1 a2 :
  entry a1 "topic" = entry a2 "topic" ->
  entry a1 "style" = entry a2 "style" ->
  outcome_of name a1 = outcome_of name a2.
Proof.
  unfold outcome_of. intros Ht Hs.
  destruct (negb (String.eqb name "dad_joke")); [reflexivity |].
  destruct a1 as [d1 |], a2 as [d2 |]; simpl in Ht, Hs.
  - rewrite Ht, Hs. reflexivity.
  - rewrite Ht. reflexivity.
  - rewrite <- Ht. reflexivity.
  - reflexivity.
Qed.

Lemma In_lookup_style key template :
  In (key, template) JOKE_STYLES -> lookup_style key JOKE_STYLES = Some template.
Proof.
  unfold JOKE_STYLES. cbn [In]. intros H.
  repeat (destruct H as [H | H]; [injection H as <- <-; reflexivity |]).
  destruct H.
Qed.

Lemma in_catalog_resolves key template :
  lookup_style key JOKE_STYLES = Some template -> resolve_style key = key.
Proof.
  intros H. destruct (catalog_shape _ _ H) as (Hlow & _).
  unfold resolve_style, is_style. rewrite Hlow, H. reflexivity.
Qed.

Lemma not_in_catalog_resolves requested :
  is_style (Str.lower requested) JOKE_STYLES = false ->
  resolve_style requested = "classic".
Proof. unfold resolve_style. intros ->. reflexivity. Qed.

(** ** The catalog *)

(** C7. The catalog has exactly the eight identifiers pun, wordplay,
    observational, anti-humor, question-answer, one-liner, knock-knock and
    classic, in that order and without repetition, with eight distinct
    templates; the fallback "classic" is one of them; every template is
    well formed with exactly one replacement field, named topic; and
    formatting it with any topic returns a text instead of raising. *)
Theorem JOKE_STYLES_invariants :
  keys JOKE_STYLES
  = ["pun"; "wordplay"; "observational"; "anti-humor"; "question-answer";
     "one-liner"; "knock-knock"; "classic"]
  /\ List.length JOKE_STYLES = 8
  /\ List.NoDup (keys JOKE_STYLES)
  /\ List.NoDup (map snd JOKE_STYLES)
  /\ is_style "classic" JOKE_STYLES = true
  /\ List.Forall
       (fun kv =>
          Format.well_formed (Format.pieces (snd kv)) = true
          /\ Format.slots (Format.pieces (snd kv)) = ["topic"]
          /\ forall topic, exists text,
               Format.format (snd kv) [("topic", topic)] = inr text)
       JOKE_STYLES.
Proof.
  split; [reflexivity |]. split; [reflexivity |].
  split.
  { unfold JOKE_STYLES, keys. cbn [map fst].
    repeat (apply List.NoDup_cons; [cbn [In]; intros H; intuition discriminate |]).
    apply List.NoDup_nil. }
  split.
  { unfold JOKE_STYLES. cbn [map snd].
    repeat (apply List.NoDup_cons; [cbn [In]; intros H; intuition discriminate |]).
    apply List.NoDup_nil. }
  split; [reflexivity |].
  apply List.Forall_forall. intros [key template] Hin. cbn [snd].
  split; [| split].
  3:{ intro topic. eexists. apply (format_catalog key), In_lookup_style, Hin. }
  all: unfold JOKE_STYLES in Hin; cbn [In] in Hin;
    repeat (destruct Hin as [Hin | Hin];
            [injection Hin as <- <-; vm_compute; reflexivity |]);
    destruct Hin.
Qed.

(** ** The handler [get_prompt] *)

(** C6. Whatever the arguments (a dictionary with or without topic and
    style, or none at all), a name other than "dad_joke" makes the handler
    raise the unknown-operation error for that name. *)
Theorem get_prompt_unknown_operation (w : World) (name : string)
  (arguments : option (gmap string string)) :
  name <> "dad_joke" ->
  returned (get_prompt name arguments) w = Raise (UnknownOperation name).
Proof.
  intros Hname. rewrite get_prompt_returns. unfold outcome_of.
  destruct (String.eqb name "dad_joke") eqn:E; [| reflexivity].
  apply String.eqb_eq in E. contradiction.
Qed.

Lemma get_prompt_unknown_operation_witness :
  returned (get_prompt "not_a_real_op" (args_topic_style "cats" "pun"))
    (world0 verbose)
  = Raise (UnknownOperation "not_a_real_op").
Proof. apply get_prompt_unknown_operation. discriminate. Defined.

(** C1, as the code has it. With the supported name, the handler raises
    the missing-argument error exactly when the arguments hold no entry for
    topic: no dictionary, an empty one, or one without that key, whatever
    the style. A topic that is present is accepted, the empty string too. *)
Theorem get_prompt_missing_topic (w : World)
  (arguments : option (gmap string string)) :
  returned (get_prompt "dad_joke" arguments) w = Raise MissingArgument
  <-> entry arguments "topic" = None.
Proof.
  rewrite get_prompt_returns. split.
  - intros H. destruct arguments as [d |]; [| reflexivity]. simpl.
    destruct (d !! "topic") as [topic |] eqn:Htopic; [| reflexivity].
    destruct (outcome_with_topic d topic Htopic) as (t & _ & _ & Hout).
    rewrite Hout in H. discriminate.
  - intros H. unfold outcome_of. simpl negb. cbv iota.
    destruct arguments as [d |]; [| reflexivity]. simpl in H. rewrite H.
    reflexivity.
Qed.

Lemma get_prompt_missing_topic_witness :
  returned (get_prompt "dad_joke" (Some {[ "style" := "pun" ]})) (world0 verbose)
  = Raise MissingArgument.
Proof. apply get_prompt_missing_topic. reflexivity. Defined.

(** C1, as stated, fails: called with the empty string as topic the
    handler returns a prompt, the slot of the classic template left empty. *)
Lemma get_prompt_empty_topic_accepted :
  returned (get_prompt "dad_joke" (args_topic "")) (world0 verbose)
  = Return
      (mkGetPromptResult "Dad joke prompt about  in classic style"
         [user_message
            "You are an expert comedian skilled with puns and dad jokes. Create a joke about  that is appropriate for a workplace. Use classic dad joke style with groan-worthy puns and wholesome humor."])
  /\ returned (get_prompt "dad_joke" (args_topic "")) (world0 verbose)
     <> Raise MissingArgument.
Proof. split; [vm_compute; reflexivity | vm_compute; discriminate]. Qed.

(** C2. With a topic present, a style that is absent (null) or whose
    lower-case form is no key of the catalog (the empty string and unknown
    words in any mix of cases among them) does not make the handler fail:
    the style resolves to "classic" and the handler returns the classic
    template formatted with the topic, described as classic style. *)
Theorem get_prompt_unknown_style_falls_back (w : World)
  (d : gmap string string) (topic : string) :
  d !! "topic" = Some topic ->
  (forall requested, d !! "style" = Some requested ->
     is_style (Str.lower requested) JOKE_STYLES = false) ->
  resolve_style (from_option id "classic" (d !! "style")) = "classic"
  /\ exists template text,
       lookup_style "classic" JOKE_STYLES = Some template
       /\ Format.format template [("topic", topic)] = inr text
       /\ returned (get_prompt "dad_joke" (Some d)) w
          = Return (mkGetPromptResult
                      ("Dad joke prompt about " ++ topic ++ " in classic style")
                      [user_message text]).
Proof.
  intros Htopic Hstyle.
  assert (Hres : resolve_style (from_option id "classic" (d !! "style")) = "classic").
  { destruct (d !! "style") as [requested |] eqn:E; simpl.
    - apply not_in_catalog_resolves, Hstyle. reflexivity.
    - reflexivity. }
  split; [exact Hres |].
  destruct (outcome_with_topic d topic Htopic) as (template & Ht & _ & Hout).
  rewrite Hres in Ht, Hout.
  exists template, (before_brace template ++ topic ++ after_slot template).
  split; [exact Ht |]. split; [exact (format_catalog _ _ _ Ht) |].
  rewrite get_prompt_returns. exact Hout.
Qed.

Lemma get_prompt_unknown_style_falls_back_witness :
  resolve_style "Xyz-Unknown" = "classic"
  /\ exists template text,
       lookup_style "classic" JOKE_STYLES = Some template
       /\ Format.format template [("topic", "mathematics")] = inr text
       /\ returned (get_prompt "dad_joke" (args_topic_style "mathematics" "Xyz-Unknown"))
            (world0 verbose)
          = Return (mkGetPromptResult
                      "Dad joke prompt about mathematics in classic style"
                      [user_message text]).
Proof.
  refine (get_prompt_unknown_style_falls_back (world0 verbose)
            (<[ "style" := "Xyz-Unknown" ]> {[ "topic" := "mathematics" ]})
            "mathematics" _ _).
  - reflexivity.
  - intros requested H. vm_compute in H. injection H as <-. reflexivity.
Defined.

(** C3, as the code has it. For topic "chickens" and style "knock-knock"
    the handler returns one user message whose text begins with "You are
    skilled at creating knock-knock jokes.", and contains both the phrase
    "Knock knock." (inside the quoted format, further on) and "chickens". *)
Theorem get_prompt_knock_knock_chickens (w : World) :
  exists text,
    returned (get_prompt "dad_joke" (args_topic_style "chickens" "knock-knock")) w
    = Return (mkGetPromptResult
                "Dad joke prompt about chickens in knock-knock style"
                [user_message text])
    /\ Str.startswith text "You are skilled at creating knock-knock jokes." = true
    /\ Str.startswith text "Knock knock." = false
    /\ Str.occurs_in "Knock knock." text
    /\ Str.occurs_in "chickens" text.
Proof.
  eexists. rewrite get_prompt_returns.
  split; [vm_compute; reflexivity |].
  split; [vm_compute; reflexivity |].
  split; [vm_compute; reflexivity |].
  split; apply contains_occurs; vm_compute; reflexivity.
Qed.

(** C3, as stated, fails: the text returned for topic "chickens" and style
    "knock-knock" does not begin with "Knock knock."; it begins with the
    instruction to the comedian. *)
Lemma get_prompt_knock_knock_not_at_start :
  exists r text,
    returned (get_prompt "dad_joke" (args_topic_style "chickens" "knock-knock"))
      (world0 verbose) = Return r
    /\ text_of r = Some text
    /\ Str.startswith text "Knock knock." = false
    /\ Str.startswith text "You are skilled" = true.
Proof.
  eexists. eexists. split; [vm_compute; reflexivity |].
  split; [reflexivity |]. split; vm_compute; reflexivity.
Qed.

(** C4. For every topic, the non-empty ones in particular, and every
    style that is a key of the catalog, the handler returns; the text of
    its message is the template of that style with the whole slot replaced
    by the topic and every other character kept, so it is not empty, it
    contains the topic verbatim, and no part of the slot is left over. *)
Theorem get_prompt_known_style (w : World) (d : gmap string string)
  (topic style template : string) :
  d !! "topic" = Some topic ->
  d !! "style" = Some style ->
  lookup_style style JOKE_STYLES = Some template ->
  exists pre post text,
    template = pre ++ "{topic}" ++ post
    /\ Str.brace_free pre = true /\ Str.brace_free post = true
    /\ text = pre ++ topic ++ post
    /\ text <> ""
    /\ Str.occurs_in topic text
    /\ returned (get_prompt "dad_joke" (Some d)) w
       = Return (mkGetPromptResult
                   ("Dad joke prompt about " ++ topic ++ " in " ++ style ++ " style")
                   [user_message text]).
Proof.
  intros Htopic Hstyle Ht.
  destruct (outcome_with_topic d topic Htopic) as (template' & Ht' & _ & Hout).
  assert (Hres : resolve_style (from_option id "classic" (d !! "style")) = style)
    by (rewrite Hstyle; exact (in_catalog_resolves _ _ Ht)).
  rewrite Hres in Ht', Hout.
  rewrite Ht in Ht'. injection Ht' as <-.
  destruct (catalog_shape _ _ Ht) as (_ & Heq & Hpre & Hpost & Hne).
  exists (before_brace template), (after_slot template),
    (before_brace template ++ topic ++ after_slot template).
  repeat split; try assumption.
  - destruct (before_brace template); [contradiction | discriminate].
  - exists (before_brace template), (after_slot template). reflexivity.
  - rewrite get_prompt_returns. exact Hout.
Qed.

Lemma get_prompt_known_style_witness :
  exists pre post text,
    "You are a master of concise one-liner jokes. Create a short, punchy dad joke about {topic} that delivers the humor in a single sentence. Focus on wordplay or unexpected twists."
    = pre ++ "{topic}" ++ post
    /\ Str.brace_free pre = true /\ Str.brace_free post = true
    /\ text = pre ++ "a {cat}" ++ post
    /\ text <> ""
    /\ Str.occurs_in "a {cat}" text
    /\ returned (get_prompt "dad_joke" (args_topic_style "a {cat}" "one-liner"))
         (world0 verbose)
       = Return (mkGetPromptResult
                   "Dad joke prompt about a {cat} in one-liner style"
                   [user_message text]).
Proof.
  apply (get_prompt_known_style (world0 verbose)
           (<[ "style" := "one-liner" ]> {[ "topic" := "a {cat}" ]})
           "a {cat}" "one-liner"); reflexivity.
Defined.

(** C5. Style matching ignores case: two dictionaries that differ only in
    the case of their style (styles with the same lower-case form, such as
    "PUN" and "pun") get the same response, in any two worlds. *)
Theorem get_prompt_style_case_insensitive (w1 w2 : World)
  (d : gmap string string) (style1 style2 : string) :
  Str.lower style1 = Str.lower style2 ->
  returned (get_prompt "dad_joke" (Some (<[ "style" := style1 ]> d))) w1
  = returned (get_prompt "dad_joke" (Some (<[ "style" := style2 ]> d))) w2.
Proof.
  intros Hlow. rewrite !get_prompt_returns. unfold outcome_of.
  simpl negb. cbv iota.
  rewrite (lookup_insert_ne d "style" "topic" style1) by discriminate.
  rewrite (lookup_insert_ne d "style" "topic" style2) by discriminate.
  destruct (d !! "topic") as [topic |]; [| reflexivity].
  rewrite !lookup_insert_eq. simpl from_option.
  unfold resolve_style. rewrite Hlow. reflexivity.
Qed.

Lemma get_prompt_style_case_insensitive_witness :
  returned (get_prompt "dad_joke" (args_topic_style "cats" "PUN")) (world0 verbose)
  = returned (get_prompt "dad_joke" (args_topic_style "cats" "pun")) (world0 quiet).
Proof.
  apply (get_prompt_style_case_insensitive (world0 verbose) (world0 quiet)
           {[ "topic" := "cats" ]} "PUN" "pun").
  reflexivity.
Defined.

(** C9. Whenever the handler returns, the name was "dad_joke", a topic
    was present, and the response holds exactly one message, of role
    "user", whose text is the template of the resolved style (the
    lower-cased request, or "classic" when that is absent or unknown) with
    the topic in the place of its slot; the description reads "Dad joke
    prompt about", the topic, "in", the resolved style, "style". *)
Theorem get_prompt_response_shape (w : World) (name : string)
  (arguments : option (gmap string string)) (r : GetPromptResult) :
  returned (get_prompt name arguments) w = Return r ->
  exists topic style template pre post,
    name = "dad_joke"
    /\ entry arguments "topic" = Some topic
    /\ style = resolve_style (from_option id "classic" (entry arguments "style"))
    /\ lookup_style style JOKE_STYLES = Some template
    /\ template = pre ++ "{topic}" ++ post
    /\ Format.format template [("topic", topic)] = inr (pre ++ topic ++ post)
    /\ result_messages r
       = [mkPromptMessage "user" (mkTextContent "text" (pre ++ topic ++ post))]
    /\ result_description r
       = "Dad joke prompt about " ++ topic ++ " in " ++ style ++ " style".
Proof.
  rewrite get_prompt_returns. intros H.
  assert (Hname : name = "dad_joke").
  { unfold outcome_of in H. destruct (String.eqb name "dad_joke") eqn:E.
    - now apply String.eqb_eq in E.
    - simpl in H. discriminate. }
  subst name.
  destruct arguments as [d |]; [| discriminate].
  destruct (d !! "topic") as [topic |] eqn:Htopic.
  2:{ unfold outcome_of in H. simpl in H. rewrite Htopic in H. discriminate. }
  destruct (outcome_with_topic d topic Htopic) as (template & Ht & Hshape & Hout).
  rewrite Hout in H. injection H as <-.
  destruct Hshape as (_ & Heq & _).
  exists topic, (resolve_style (from_option id "classic" (d !! "style"))),
    template, (before_brace template), (after_slot template).
  simpl entry. rewrite Htopic.
  repeat split; try assumption; try reflexivity.
  exact (format_catalog _ _ _ Ht).
Qed.

Lemma get_prompt_response_shape_witness :
  exists topic style template pre post,
    "dad_joke" = "dad_joke"
    /\ entry (args_topic_style "mathematics" "One-Liner") "topic" = Some topic
    /\ style = resolve_style
                 (from_option id "classic"
                    (entry (args_topic_style "mathematics" "One-Liner") "style"))
    /\ lookup_style style JOKE_STYLES = Some template
    /\ template = pre ++ "{topic}" ++ post
    /\ Format.format template [("topic", topic)] = inr (pre ++ topic ++ post)
    /\ result_messages
         (mkGetPromptResult "Dad joke prompt about mathematics in one-liner style"
            [user_message
               "You are a master of concise one-liner jokes. Create a short, punchy dad joke about mathematics that delivers the humor in a single sentence. Focus on wordplay or unexpected twists."])
       = [mkPromptMessage "user" (mkTextContent "text" (pre ++ topic ++ post))]
    /\ result_description
         (mkGetPromptResult "Dad joke prompt about mathematics in one-liner style"
            [user_message
               "You are a master of concise one-liner jokes. Create a short, punchy dad joke about mathematics that delivers the humor in a single sentence. Focus on wordplay or unexpected twists."])
       = "Dad joke prompt about " ++ topic ++ " in " ++ style ++ " style".
Proof.
  apply (get_prompt_response_shape (world0 verbose) "dad_joke"
           (args_topic_style "mathematics" "One-Liner")).
  vm_compute. reflexivity.
Defined.

(** C10. The response depends on the arguments only through their
    entries for topic and style: two argument values that agree on those
    two entries, whatever other keys they hold, get the same response. *)
Theorem get_prompt_ignores_other_arguments (w1 w2 : World) (name : string)
  (arguments1 arguments2 : option (gmap string string)) :
  entry arguments1 "topic" = entry arguments2 "topic" ->
  entry arguments1 "style" = entry arguments2 "style" ->
  returned (get_prompt name arguments1) w1
  = returned (get_prompt name arguments2) w2.
Proof.
  intros Ht Hs. rewrite !get_prompt_returns. now apply outcome_of_entries.
Qed.

Lemma get_prompt_ignores_other_arguments_witness :
  returned (get_prompt "dad_joke" (args_topic_style "cats" "pun")) (world0 verbose)
  = returned
      (get_prompt "dad_joke"
         (Some (<[ "verbose" := "yes" ]>
                  (<[ "style" := "pun" ]> {[ "topic" := "cats" ]}))))
      (world0 verbose).
Proof.
  apply get_prompt_ignores_other_arguments; reflexivity.
Defined.

(** ** Determinism of the two handlers *)

(** C8. What the handlers return does not depend on the world: in any
    two worlds (request ids, clocks, settings and logs) [list_prompts]
    returns the same single descriptor, whose style argument lists the keys
    of the catalog in the order of their declaration, and [get_prompt]
    returns the same response, or raises the same error, for the same name
    and arguments. *)
Theorem handlers_deterministic (w1 w2 : World) :
  returned list_prompts w1 = returned list_prompts w2
  /\ (exists p topic_arg style_arg,
        returned list_prompts w1 = Return [p]
        /\ prompt_name p = "dad_joke"
        /\ prompt_arguments p = [topic_arg; style_arg]
        /\ arg_description style_arg
           = "The style of dad joke. Options: "
             ++ Str.join ", " (keys JOKE_STYLES) ++ ". Default: classic"
        /\ arg_description style_arg
           = "The style of dad joke. Options: pun, wordplay, observational, anti-humor, question-answer, one-liner, knock-knock, classic. Default: classic")
  /\ forall name arguments,
       returned (get_prompt name arguments) w1
       = returned (get_prompt name arguments) w2.
Proof.
  split; [now rewrite !list_prompts_returns |].
  split.
  - do 3 eexists. split; [apply list_prompts_returns |].
    repeat split; reflexivity.
  - intros name arguments. now rewrite !get_prompt_returns.
Qed.

(** ** The warning of the fallback *)

(** Falling back is not silent in the log: when the requested style is
    present and unknown, the handler records a warning that carries the
    request id, the lower-cased request and the keys of the catalog. *)
Lemma get_prompt_unknown_style_warns (w : World) (d : gmap string string)
  (topic requested : string) :
  d !! "topic" = Some topic ->
  d !! "style" = Some requested ->
  is_style (Str.lower requested) JOKE_STYLES = false ->
  In (mkLogRecord WARNING
        ("Unknown joke style '" ++ Str.lower requested
         ++ "', falling back to 'classic'")
        [("request_id", VStr (uuid_source w (uuids_drawn w)));
         ("requested_style", VStr (Str.lower requested));
         ("available_styles", VStrs (keys JOKE_STYLES))])
     (logged (get_prompt "dad_joke" (Some d)) w).
Proof.
  intros Htopic Hstyle Hunknown.
  assert (Hd : d <> ∅) by (intros ->; rewrite lookup_empty in Htopic; discriminate).
  pose proof (format_catalog "classic" _ topic eq_refl) as Hf.
  unfold logged, get_prompt, log_request, log_response, get_settings, uuid4,
    utcnow, logger_info, logger_warning, logger_error, logger_log, lift,
    mbind, M_bind, bind, ret, raise.
  cbn [falsy has_key getitem get_default String.eqb Ascii.eqb Bool.eqb negb
       settings uuid_source clock_source uuids_drawn clock_reads records].
  rewrite Htopic, Hstyle.
  rewrite (bool_decide_eq_false_2 _ Hd).
  rewrite bool_decide_eq_true_2 by eauto.
  destruct (log_requests (settings w));
    cbn [negb from_option id settings uuid_source clock_source uuids_drawn
         clock_reads records fst snd];
    rewrite Hunknown;
    cbn [negb settings uuid_source clock_source uuids_drawn clock_reads
         records fst snd];
    set (classic := lookup_style "classic" JOKE_STYLES);
    vm_compute in classic; subst classic; cbv beta iota;
    rewrite Hf; cbv beta iota;
    cbn [settings uuid_source clock_source uuids_drawn clock_reads records];
    destruct (log_responses (settings w)); cbv beta iota;
    cbn [settings uuid_source clock_source uuids_drawn clock_reads records snd];
    rewrite ?in_app_iff; cbn [In]; tauto.
Qed.

(** ** The handlers as state transformers *)

Lemma log_request_runs request_id request_type data w :
  log_request request_id request_type data w
  = (Return tt,
     mkWorld (settings w) (uuid_source w) (clock_source w) (uuids_drawn w)
       (clock_reads w + ticks (log_requests (settings w)))
       (records w
        ++ incoming (settings w) request_id request_type data
             (clock_source w (clock_reads w)))%list).
Proof.
  unfold log_request, incoming, get_settings, utcnow, logger_info, logger_log,
    mbind, M_bind, bind, ret.
  destruct w as [s us cs n k l]. cbn.
  destruct (log_requests s); cbn; rewrite ?Nat.add_0_r, ?Nat.add_1_r, ?app_nil_r;
    reflexivity.
Qed.

Lemma log_response_runs request_id request_type response w :
  log_response request_id request_type response w
  = (Return tt,
     mkWorld (settings w) (uuid_source w) (clock_source w) (uuids_drawn w)
       (clock_reads w + ticks (log_responses (settings w)))
       (records w
        ++ outgoing (settings w) request_id request_type response
             (clock_source w (clock_reads w)))%list).
Proof.
  unfold log_response, outgoing, get_settings, utcnow, logger_info, logger_log,
    mbind, M_bind, bind, ret.
  destruct w as [s us cs n k l]. cbn.
  destruct (log_responses s); cbn; rewrite ?Nat.add_0_r, ?Nat.add_1_r, ?app_nil_r;
    reflexivity.
Qed.

Lemma bind_runs {A B : Type} (m : M A) (k : A -> M B) a w w' :
  m w = (Return a, w') -> (m ≫= k) w = k a w'.
Proof. intros H. unfold mbind, M_bind, bind. rewrite H. reflexivity. Qed.

Lemma bind_raises {A B : Type} (m : M A) (k : A -> M B) e w w' :
  m w = (Raise e, w') -> (m ≫= k) w = (Raise e, w').
Proof. intros H. unfold mbind, M_bind, bind. rewrite H. reflexivity. Qed.

Lemma topic_test_runs arguments w :
  ((if falsy arguments then ret true
    else present ← lift (has_key "topic" arguments); ret (negb present)) : M bool) w
  = (Return (match entry arguments "topic" with None => true | Some _ => false end), w).
Proof.
  destruct arguments as [d |]; [| reflexivity]. cbn [falsy entry].
  case_bool_decide as Hd.
  - subst d. rewrite lookup_empty. reflexivity.
  - cbn [has_key lift]. erewrite bind_runs by reflexivity.
    destruct (d !! "topic") as [topic |] eqn:Htopic.
    + rewrite bool_decide_eq_true_2 by eauto. reflexivity.
    + rewrite bool_decide_eq_false_2 by (intros [? ?]; discriminate). reflexivity.
Qed.

Lemma get_prompt_runs name arguments w :
  get_prompt name arguments w
  = (outcome_of name arguments,
     mkWorld (settings w) (uuid_source w) (clock_source w)
       (S (uuids_drawn w))
       (clock_reads w + clock_ticks (settings w) name arguments)
       (records w ++ trace_of w name arguments)%list).
Proof.
  unfold get_prompt.
  erewrite bind_runs by reflexivity.
  erewrite bind_runs by apply log_request_runs.
  cbn [settings uuid_source clock_source uuids_drawn clock_reads records].
  unfold clock_ticks, trace_of, outcome_of.
  destruct (negb (String.eqb name "dad_joke")).
  { cbv zeta. erewrite bind_runs by reflexivity. unfold raise.
    cbn [settings uuid_source clock_source uuids_drawn clock_reads records].
    rewrite Nat.add_0_r, <- app_assoc. reflexivity. }
  erewrite bind_runs by apply topic_test_runs.
  destruct arguments as [d |]; cbn [entry].
  2:{ cbv zeta. erewrite bind_runs by reflexivity. unfold raise.
      cbn [settings uuid_source clock_source uuids_drawn clock_reads records].
      rewrite Nat.add_0_r, <- app_assoc. reflexivity. }
  destruct (d !! "topic") as [topic |] eqn:Htopic.
  2:{ cbv zeta. erewrite bind_runs by reflexivity. unfold raise.
      cbn [settings uuid_source clock_source uuids_drawn clock_reads records].
      rewrite Nat.add_0_r, <- app_assoc. reflexivity. }
  cbn [getitem get_default lift]. rewrite Htopic.
  erewrite bind_runs by reflexivity. erewrite bind_runs by reflexivity.
  cbv zeta. unfold resolve_style.
  set (requested := Str.lower (from_option id "classic" (d !! "style"))).
  set (request_id := uuid_source w (uuids_drawn w)).
  destruct (is_style requested JOKE_STYLES) eqn:Hstyle; cbn [negb].
  - erewrite bind_runs by reflexivity.
    destruct (lookup_style requested JOKE_STYLES) as [template |].
    + erewrite bind_runs by reflexivity.
      destruct (Format.format template [("topic", topic)]) as [e | text].
      * erewrite bind_raises by reflexivity.
        rewrite !Nat.add_0_r, !app_nil_r. reflexivity.
      * erewrite bind_runs by reflexivity.
        erewrite bind_runs by apply log_response_runs.
        erewrite bind_runs by reflexivity. unfold ret.
        cbn [settings uuid_source clock_source uuids_drawn clock_reads records].
        rewrite app_nil_l, <- !app_assoc, Nat.add_assoc. reflexivity.
    + erewrite bind_raises by reflexivity.
      rewrite !Nat.add_0_r, !app_nil_r. reflexivity.
  - erewrite bind_runs by reflexivity.
    destruct (lookup_style "classic" JOKE_STYLES) as [template |].
    + erewrite bind_runs by reflexivity.
      destruct (Format.format template [("topic", topic)]) as [e | text].
      * erewrite bind_raises by reflexivity.
        cbn [settings uuid_source clock_source uuids_drawn clock_reads records].
        rewrite !Nat.add_0_r, !app_nil_r, <- app_assoc. reflexivity.
      * erewrite bind_runs by reflexivity.
        erewrite bind_runs by apply log_response_runs.
        erewrite bind_runs by reflexivity. unfold ret.
        cbn [settings uuid_source clock_source uuids_drawn clock_reads records].
        rewrite <- !app_assoc, Nat.add_assoc. reflexivity.
    + erewrite bind_raises by reflexivity.
      cbn [settings uuid_source clock_source uuids_drawn clock_reads records].
      rewrite !Nat.add_0_r, !app_nil_r, <- app_assoc. reflexivity.
Qed.

Lemma list_prompts_runs w :
  list_prompts w
  = (Return prompts,
     mkWorld (settings w) (uuid_source w) (clock_source w)
       (S (uuids_drawn w))
       (clock_reads w + (ticks (log_requests (settings w))
                         + ticks (log_responses (settings w))))
       (records w ++ list_trace w)%list).
Proof.
  unfold list_prompts, list_trace.
  erewrite bind_runs by reflexivity.
  erewrite bind_runs by apply log_request_runs.
  cbv zeta.
  erewrite bind_runs by apply log_response_runs.
  erewrite bind_runs by reflexivity. unfold ret.
  cbn [settings uuid_source clock_source uuids_drawn clock_reads records].
  rewrite <- !app_assoc, Nat.add_assoc. reflexivity.
Qed.

Lemma skipn_length_app {A : Type} (l l' : list A) :
  skipn (List.length l) (l ++ l')%list = l'.
Proof. induction l as [| x l IH]; [reflexivity | exact IH]. Qed.

Lemma get_prompt_appended name arguments w :
  appended (get_prompt name arguments) w = trace_of w name arguments.
Proof.
  unfold appended, logged. rewrite get_prompt_runs. cbn [snd records].
  apply skipn_length_app.
Qed.

Lemma list_prompts_appended w : appended list_prompts w = list_trace w.
Proof.
  unfold appended, logged. rewrite list_prompts_runs. cbn [snd records].
  apply skipn_length_app.
Qed.

(** The three shapes of the log of one call. *)
Lemma trace_unknown w name arguments :
  name <> "dad_joke" ->
  trace_of w name arguments
  = (incoming (settings w) (next_request_id w) "get_prompt"
       (VRequest name arguments) (clock_source w (clock_reads w))
     ++ [unknown_prompt_record (next_request_id w) name])%list.
Proof.
  intros Hname. unfold trace_of, next_request_id.
  destruct (String.eqb name "dad_joke") eqn:E; [| reflexivity].
  apply String.eqb_eq in E. contradiction.
Qed.

Lemma trace_missing w arguments :
  entry arguments "topic" = None ->
  trace_of w "dad_joke" arguments
  = (incoming (settings w) (next_request_id w) "get_prompt"
       (VRequest "dad_joke" arguments) (clock_source w (clock_reads w))
     ++ [missing_topic_record (next_request_id w) arguments])%list.
Proof. intros H. unfold trace_of, next_request_id. rewrite H. reflexivity. Qed.

Lemma trace_success w arguments topic :
  entry arguments "topic" = Some topic ->
  let requested := Str.lower (from_option id "classic" (entry arguments "style")) in
  let style := resolve_style (from_option id "classic" (entry arguments "style")) in
  exists template,
    lookup_style style JOKE_STYLES = Some template
    /\ let text := before_brace template ++ topic ++ after_slot template in
       let r := mkGetPromptResult (describe topic style) [user_message text] in
       outcome_of "dad_joke" arguments = Return r
       /\ trace_of w "dad_joke" arguments
          = (incoming (settings w) (next_request_id w) "get_prompt"
               (VRequest "dad_joke" arguments) (clock_source w (clock_reads w))
             ++ (if is_style requested JOKE_STYLES then []
                 else [unknown_style_record (next_request_id w) requested])
             ++ outgoing (settings w) (next_request_id w) "get_prompt" (VResult r)
                  (clock_source w
                     (clock_reads w + ticks (log_requests (settings w))))
             ++ [generated_record (next_request_id w) topic style
                   (String.length text)])%list.
Proof.
  intros Htopic requested style.
  destruct arguments as [d |]; [| discriminate]. cbn [entry] in *.
  destruct (outcome_with_topic d topic Htopic) as (template & Ht & _ & Hout).
  exists template. split; [exact Ht |]. cbv zeta. split; [exact Hout |].
  pose proof (format_catalog _ _ topic Ht) as Hf.
  subst requested style. unfold resolve_style in *.
  unfold trace_of, next_request_id. cbv zeta.
  change (negb (String.eqb "dad_joke" "dad_joke")) with false.
  cbn [entry]. rewrite Htopic, Ht, Hf. reflexivity.
Qed.

Lemma call_cases w name arguments :
  (name <> "dad_joke"
   /\ outcome_of name arguments = Raise (UnknownOperation name)
   /\ trace_of w name arguments
      = (incoming (settings w) (next_request_id w) "get_prompt"
           (VRequest name arguments) (clock_source w (clock_reads w))
         ++ [unknown_prompt_record (next_request_id w) name])%list)
  \/ (name = "dad_joke"
      /\ entry arguments "topic" = None
      /\ outcome_of name arguments = Raise MissingArgument
      /\ trace_of w name arguments
         = (incoming (settings w) (next_request_id w) "get_prompt"
              (VRequest name arguments) (clock_source w (clock_reads w))
            ++ [missing_topic_record (next_request_id w) arguments])%list)
  \/ (name = "dad_joke"
      /\ exists topic template,
           entry arguments "topic" = Some topic
           /\ let requested :=
                Str.lower (from_option id "classic" (entry arguments "style")) in
              let style :=
                resolve_style (from_option id "classic" (entry arguments "style")) in
              let text := before_brace template ++ topic ++ after_slot template in
              let r := mkGetPromptResult (describe topic style) [user_message text] in
              lookup_style style JOKE_STYLES = Some template
              /\ outcome_of name arguments = Return r
              /\ trace_of w name arguments
                 = (incoming (settings w) (next_request_id w) "get_prompt"
                      (VRequest name arguments) (clock_source w (clock_reads w))
                    ++ (if is_style requested JOKE_STYLES then []
                        else [unknown_style_record (next_request_id w) requested])
                    ++ outgoing (settings w) (next_request_id w) "get_prompt"
                         (VResult r)
                         (clock_source w
                            (clock_reads w + ticks (log_requests (settings w))))
                    ++ [generated_record (next_request_id w) topic style
                          (String.length text)])%list).
Proof.
  destruct (String.eqb_spec name "dad_joke") as [-> | Hname].
  - right. destruct (entry arguments "topic") as [topic |] eqn:Htopic.
    + right. split; [reflexivity |].
      destruct (trace_success w arguments topic Htopic) as (template & Ht & Hout & Htrace).
      exists topic, template. split; [reflexivity |]. cbv zeta.
      split; [exact Ht |]. split; [exact Hout | exact Htrace].
    + left. split; [reflexivity |]. split; [reflexivity |].
      split; [| exact (trace_missing w arguments Htopic)].
      unfold outcome_of. simpl negb. cbv iota.
      destruct arguments as [d |]; [| reflexivity]. cbn [entry] in Htopic.
      rewrite Htopic. reflexivity.
  - left. split; [exact Hname |]. split; [| exact (trace_unknown w name arguments Hname)].
    unfold outcome_of. destruct (String.eqb_spec name "dad_joke"); [contradiction |].
    reflexivity.
Qed.

(** Case analysis on one call: rewrites the outcome and the appended
    records of [get_prompt] to their shape in each of the three cases. *)
Ltac by_cases w name arguments :=
  rewrite ?get_prompt_appended, ?get_prompt_returns;
  destruct (call_cases w name arguments)
    as [(Hname & Hout & Htrace)
       | [(Hname & Htopic & Hout & Htrace)
         | (Hname & the_topic & the_template & Htopic & Ht & Hout & Htrace)]];
  cbv zeta in *; rewrite ?Htrace, ?Hout.

Ltac flags w :=
  unfold incoming, outgoing;
  destruct (log_requests (settings w)), (log_responses (settings w)).

(** ** The log of [get_prompt] *)

(** X1. [get_prompt] raises nothing but its two [ValueError]s: the
    unknown-prompt error exactly for a name other than "dad_joke", the
    missing-argument error exactly for that name without a topic. The
    lookups [arguments["topic"]] and [JOKE_STYLES[style]] and the call of
    [str.format] never raise. *)
Theorem get_prompt_raises_only_its_errors (w : World) (name : string)
  (arguments : option (gmap string string)) (e : exn) :
  returned (get_prompt name arguments) w = Raise e ->
  (name <> "dad_joke" /\ e = UnknownOperation name)
  \/ (name = "dad_joke" /\ entry arguments "topic" = None /\ e = MissingArgument).
Proof.
  by_cases w name arguments; intros H.
  - left. injection H as <-. split; [assumption | reflexivity].
  - right. injection H as <-. repeat split; assumption.
  - discriminate.
Qed.

Lemma get_prompt_raises_only_its_errors_witness :
  ("dad_joke" <> "dad_joke" /\ MissingArgument = UnknownOperation "dad_joke")
  \/ ("dad_joke" = "dad_joke"
      /\ entry (Some {[ "style" := "pun" ]}) "topic" = None
      /\ MissingArgument = MissingArgument).
Proof.
  apply (get_prompt_raises_only_its_errors (world0 verbose) "dad_joke"
           (Some {[ "style" := "pun" ]}) MissingArgument).
  reflexivity.
Defined.

(** X2. One call of [get_prompt] leaves the settings and the two sources
    as they are, draws exactly one request id, and only appends to the log:
    between one and four records. It reads the clock once for each record
    of [log_request] and [log_response] it appends, so at most twice, and
    not at all when both are switched off. *)
Theorem get_prompt_frame (w : World) (name : string)
  (arguments : option (gmap string string)) :
  let w' := snd (get_prompt name arguments w) in
  let added := appended (get_prompt name arguments) w in
  settings w' = settings w
  /\ uuid_source w' = uuid_source w
  /\ clock_source w' = clock_source w
  /\ uuids_drawn w' = S (uuids_drawn w)
  /\ records w' = (records w ++ added)%list
  /\ 1 <= List.length added <= 4
  /\ clock_reads w' = clock_reads w + List.length (List.filter is_payload added)
  /\ List.length (List.filter is_payload added)
     <= ticks (log_requests (settings w)) + ticks (log_responses (settings w)).
Proof.
  cbv zeta. rewrite get_prompt_appended, get_prompt_runs.
  cbn [snd settings uuid_source clock_source uuids_drawn clock_reads records].
  do 5 (split; [reflexivity |]). unfold clock_ticks.
  by_cases w name arguments.
  - flags w; cbn; lia.
  - flags w; cbn; lia.
  - destruct (is_style _ JOKE_STYLES); flags w; cbn; lia.
Qed.

(** X3. Every record one call of [get_prompt] appends carries the request
    id drawn at the start of that call. *)
Theorem get_prompt_records_share_request_id (w : World) (name : string)
  (arguments : option (gmap string string)) :
  Forall (has_request_id (next_request_id w))
    (appended (get_prompt name arguments) w).
Proof.
  by_cases w name arguments.
  - flags w; repeat constructor.
  - flags w; repeat constructor.
  - destruct (is_style _ JOKE_STYLES); flags w; repeat constructor.
Qed.

(** X4. A call that raises leaves exactly one ERROR record, the last of
    the call, whose message is the message of the exception raised; it
    writes no response record. *)
Theorem get_prompt_failure_logged (w : World) (name : string)
  (arguments : option (gmap string string)) (e : exn) :
  returned (get_prompt name arguments) w = Raise e ->
  let added := appended (get_prompt name arguments) w in
  exists msg extra,
    e = ValueError msg
    /\ last added = Some (mkLogRecord ERROR msg extra)
    /\ List.filter is_error added = [mkLogRecord ERROR msg extra]
    /\ List.filter is_outgoing added = [].
Proof.
  by_cases w name arguments; intros H.
  - injection H as <-. do 2 eexists. split; [reflexivity |].
    flags w; cbn; repeat split; reflexivity.
  - injection H as <-. do 2 eexists. split; [reflexivity |].
    flags w; cbn; repeat split; reflexivity.
  - discriminate.
Qed.

Lemma get_prompt_failure_logged_witness :
  exists msg extra,
    UnknownOperation "joke" = ValueError msg
    /\ last (appended (get_prompt "joke" None) (world0 verbose))
       = Some (mkLogRecord ERROR msg extra)
    /\ List.filter is_error (appended (get_prompt "joke" None) (world0 verbose))
       = [mkLogRecord ERROR msg extra]
    /\ List.filter is_outgoing (appended (get_prompt "joke" None) (world0 verbose))
       = [].
Proof.
  apply (get_prompt_failure_logged (world0 verbose) "joke" None
           (UnknownOperation "joke")).
  reflexivity.
Defined.

(** X5. A call that returns appends no ERROR record, and its last record
    is the summary of the response it returns: the topic as received, the
    style named in the description, and the length of the text of the
    message. *)
Theorem get_prompt_success_logged (w : World) (name : string)
  (arguments : option (gmap string string)) (r : GetPromptResult) :
  returned (get_prompt name arguments) w = Return r ->
  let added := appended (get_prompt name arguments) w in
  List.filter is_error added = []
  /\ exists topic style text,
       entry arguments "topic" = Some topic
       /\ result_description r
          = "Dad joke prompt about " ++ topic ++ " in " ++ style ++ " style"
       /\ text_of r = Some text
       /\ last added
          = Some (generated_record (next_request_id w) topic style
                    (String.length text)).
Proof.
  by_cases w name arguments; intros H; try discriminate.
  injection H as <-. split.
  - destruct (is_style _ JOKE_STYLES); flags w; reflexivity.
  - do 3 eexists. split; [exact Htopic |]. split; [reflexivity |].
    split; [reflexivity |].
    destruct (is_style _ JOKE_STYLES); flags w; reflexivity.
Qed.

Lemma get_prompt_success_logged_witness :
  let added :=
    appended (get_prompt "dad_joke" (args_topic_style "cats" "PUN")) (world0 quiet) in
  List.filter is_error added = []
  /\ exists topic style text,
       entry (args_topic_style "cats" "PUN") "topic" = Some topic
       /\ result_description
            (mkGetPromptResult "Dad joke prompt about cats in pun style"
               [user_message
                  "You are an expert comedian specializing in puns and wordplay. Create a clever pun-based dad joke about cats that plays on multiple meanings of words. The joke should be groan-worthy but clever, appropriate for all ages."])
          = "Dad joke prompt about " ++ topic ++ " in " ++ style ++ " style"
       /\ text_of
            (mkGetPromptResult "Dad joke prompt about cats in pun style"
               [user_message
                  "You are an expert comedian specializing in puns and wordplay. Create a clever pun-based dad joke about cats that plays on multiple meanings of words. The joke should be groan-worthy but clever, appropriate for all ages."])
          = Some text
       /\ last added
          = Some (generated_record (next_request_id (world0 quiet)) topic style
                    (String.length text)).
Proof.
  apply (get_prompt_success_logged (world0 quiet) "dad_joke"
           (args_topic_style "cats" "PUN")).
  vm_compute. reflexivity.
Defined.

(** X6. A response record is written exactly when the call returns and
    [log_responses] is set, and then it carries the very response
    returned, stamped with the clock value that follows the one of the
    request record. *)
Theorem get_prompt_response_record (w : World) (name : string)
  (arguments : option (gmap string string)) :
  List.filter is_outgoing (appended (get_prompt name arguments) w)
  = match returned (get_prompt name arguments) w with
    | Return r =>
        outgoing (settings w) (next_request_id w) "get_prompt" (VResult r)
          (clock_source w (clock_reads w + ticks (log_requests (settings w))))
    | Raise _ => []
    end.
Proof.
  by_cases w name arguments.
  - flags w; reflexivity.
  - flags w; reflexivity.
  - destruct (is_style _ JOKE_STYLES); flags w; reflexivity.
Qed.

(** X7. The request is logged before it is validated: when [log_requests]
    is set, the first record of every call, failing or not, is the request
    record with the name and the arguments as they were received; no other
    record of the call is a request record. *)
Theorem get_prompt_request_record (w : World) (name : string)
  (arguments : option (gmap string string)) :
  exists rest,
    appended (get_prompt name arguments) w
    = (incoming (settings w) (next_request_id w) "get_prompt"
         (VRequest name arguments) (clock_source w (clock_reads w))
       ++ rest)%list
    /\ rest <> []
    /\ List.filter is_incoming rest = [].
Proof.
  by_cases w name arguments.
  - eexists. split; [reflexivity |]. split; [discriminate | reflexivity].
  - eexists. split; [reflexivity |]. split; [discriminate | reflexivity].
  - eexists. split; [reflexivity |].
    destruct (is_style _ JOKE_STYLES); unfold outgoing;
      destruct (log_responses (settings w)); split; try discriminate; reflexivity.
Qed.

(** X8. The warning of the fallback is written exactly when the call
    returns and the lower-cased style is no key of the catalog; an absent
    style is the default "classic" and gives no warning. There is at most
    one warning, and it names the lower-cased style. *)
Theorem get_prompt_warning_record (w : World) (name : string)
  (arguments : option (gmap string string)) :
  let requested := Str.lower (from_option id "classic" (entry arguments "style")) in
  List.filter is_warning (appended (get_prompt name arguments) w)
  = match returned (get_prompt name arguments) w with
    | Return _ =>
        if is_style requested JOKE_STYLES then []
        else [unknown_style_record (next_request_id w) requested]
    | Raise _ => []
    end.
Proof.
  cbv zeta. by_cases w name arguments.
  - flags w; reflexivity.
  - flags w; reflexivity.
  - destruct (is_style _ JOKE_STYLES); flags w; reflexivity.
Qed.

(** X9. The settings, the clock and the log found only decide the
    request and response records: two calls with the same name and
    arguments that draw the same request id append the same other records,
    whatever their worlds. *)
Theorem get_prompt_settings_toggle_payload_only (w1 w2 : World) (name : string)
  (arguments : option (gmap string string)) :
  next_request_id w1 = next_request_id w2 ->
  List.filter (fun r => negb (is_payload r)) (appended (get_prompt name arguments) w1)
  = List.filter (fun r => negb (is_payload r)) (appended (get_prompt name arguments) w2).
Proof.
  intros Hid. rewrite !get_prompt_appended.
  destruct (call_cases w1 name arguments)
    as [(Hn1 & _ & ->)
       | [(Hn1 & Htopic1 & _ & ->)
         | (Hn1 & topic & template & Htopic1 & Ht & _ & ->)]];
  destruct (call_cases w2 name arguments)
    as [(Hn & _ & ->)
       | [(Hn & Htopic & _ & ->)
         | (Hn & topic' & template' & Htopic & Ht' & _ & ->)]];
  try contradiction; try congruence.
  - rewrite Hid. flags w1; flags w2; reflexivity.
  - rewrite Hid. flags w1; flags w2; reflexivity.
  - cbv zeta in *. rewrite Hid.
    assert (topic' = topic) as -> by congruence.
    assert (template' = template) as -> by congruence.
    destruct (is_style _ JOKE_STYLES); flags w1; flags w2; reflexivity.
Qed.

Lemma get_prompt_settings_toggle_payload_only_witness :
  List.filter (fun r => negb (is_payload r))
    (appended (get_prompt "dad_joke" (args_topic_style "cats" "limerick"))
       (world0 verbose))
  = List.filter (fun r => negb (is_payload r))
      (appended (get_prompt "dad_joke" (args_topic_style "cats" "limerick"))
         (world0 quiet)).
Proof.
  apply get_prompt_settings_toggle_payload_only. reflexivity.
Defined.

(** ** The log of [list_prompts] *)

(** X10. [list_prompts] always returns, draws one request id and only
    appends to the log: at most three records, none of them an error, all
    with that request id. The last one counts and names the prompts
    returned, and the response record, when [log_responses] asks for it,
    carries the prompts returned. *)
Theorem list_prompts_logged (w : World) :
  let w' := snd (list_prompts w) in
  let added := appended list_prompts w in
  exists ps,
    returned list_prompts w = Return ps
    /\ uuids_drawn w' = S (uuids_drawn w)
    /\ records w' = (records w ++ added)%list
    /\ 1 <= List.length added <= 3
    /\ clock_reads w' = clock_reads w + List.length (List.filter is_payload added)
    /\ Forall (has_request_id (next_request_id w)) added
    /\ List.filter is_error added = []
    /\ List.filter is_outgoing added
       = outgoing (settings w) (next_request_id w) "list_prompts" (VPrompts ps)
           (clock_source w (clock_reads w + ticks (log_requests (settings w))))
    /\ last added = Some (listed_record (next_request_id w) ps).
Proof.
  cbv zeta. exists prompts. rewrite list_prompts_appended.
  unfold returned. rewrite list_prompts_runs.
  cbn [fst snd settings uuid_source clock_source uuids_drawn clock_reads records].
  do 3 (split; [reflexivity |]). unfold list_trace, next_request_id.
  flags w; cbn [ticks]; (split; [cbn; lia |]); (split; [cbn; lia |]);
    (split; [repeat constructor |]); repeat split; reflexivity.
Qed.

(** ** The descriptor and the handler agree *)

(** X11. The names [list_prompts] advertises are exactly the names
    [get_prompt] does not reject as unknown. *)
Theorem advertised_names_are_supported (w w' : World) (ps : list Prompt)
  (name : string) (arguments : option (gmap string string)) :
  returned list_prompts w = Return ps ->
  (In name (map prompt_name ps)
   <-> returned (get_prompt name arguments) w' <> Raise (UnknownOperation name)).
Proof.
  rewrite list_prompts_returns. intros [= <-]. cbn [map prompt_name In].
  by_cases w' name arguments.
  - split; [intros [H | []]; congruence | intros H; contradiction].
  - subst name. split; [discriminate | auto].
  - subst name. split; [discriminate | auto].
Qed.

Lemma advertised_names_are_supported_witness :
  In "dad_joke" (map prompt_name prompts)
  <-> returned (get_prompt "dad_joke" None) (world0 quiet)
      <> Raise (UnknownOperation "dad_joke").
Proof.
  apply (advertised_names_are_supported (world0 verbose) (world0 quiet) prompts).
  reflexivity.
Defined.

(** X12. The arguments [list_prompts] advertises as required are exactly
    those [get_prompt] insists on: take any dictionary holding the other
    required arguments of an advertised prompt and remove one advertised
    argument; the call fails with the missing-argument error if and only if
    that argument is advertised as required. *)
Theorem advertised_requirements_are_enforced (w w' : World) (ps : list Prompt) :
  returned list_prompts w = Return ps ->
  Forall
    (fun p =>
       Forall
         (fun a =>
            forall d : gmap string string,
              (forall b, In b (prompt_arguments p) -> arg_required b = true ->
                         arg_name b <> arg_name a -> is_Some (d !! arg_name b)) ->
              (returned (get_prompt (prompt_name p) (Some (delete (arg_name a) d))) w'
               = Raise MissingArgument
               <-> arg_required a = true))
         (prompt_arguments p))
    ps.
Proof.
  rewrite list_prompts_returns. intros [= <-].
  apply List.Forall_cons; [| apply List.Forall_nil].
  cbn [prompt_name prompt_arguments].
  apply List.Forall_cons; [| apply List.Forall_cons; [| apply List.Forall_nil]];
    cbn [arg_name arg_required]; intros d Hothers.
  - by_cases w' "dad_joke" (Some (delete "topic" d)); try tauto.
    cbn [entry] in Htopic. rewrite lookup_delete_eq in Htopic. discriminate.
  - destruct (Hothers (mkPromptArgument "topic" "The topic or subject for the dad joke" true))
      as [given Hd]; [left; reflexivity | reflexivity | discriminate |].
    cbn [arg_name] in Hd.
    by_cases w' "dad_joke" (Some (delete "style" d)).
    + contradiction.
    + cbn [entry] in Htopic. rewrite lookup_delete_ne in Htopic by discriminate.
      congruence.
    + split; discriminate.
Qed.

Lemma advertised_requirements_are_enforced_witness :
  Forall
    (fun p =>
       Forall
         (fun a =>
            forall d : gmap string string,
              (forall b, In b (prompt_arguments p) -> arg_required b = true ->
                         arg_name b <> arg_name a -> is_Some (d !! arg_name b)) ->
              (returned (get_prompt (prompt_name p) (Some (delete (arg_name a) d)))
                 (world0 quiet)
               = Raise MissingArgument
               <-> arg_required a = true))
         (prompt_arguments p))
    prompts.
Proof.
  apply (advertised_requirements_are_enforced (world0 verbose) (world0 quiet) prompts).
  reflexivity.
Defined.

(** ** Normalisation of the style *)

(** X13. The style a response names is a fixed point of the resolution:
    calling again with the style replaced by the resolved one gives the
    same response. *)
Theorem get_prompt_resolved_style_is_stable (w w' : World)
  (d : gmap string string) :
  returned
    (get_prompt "dad_joke"
       (Some (<[ "style" := resolve_style (from_option id "classic" (d !! "style")) ]> d)))
    w'
  = returned (get_prompt "dad_joke" (Some d)) w.
Proof.
  rewrite !get_prompt_returns. unfold outcome_of.
  change (negb (String.eqb "dad_joke" "dad_joke")) with false. cbv iota.
  rewrite lookup_insert_ne by discriminate.
  destruct (d !! "topic") as [topic |]; [| reflexivity].
  rewrite lookup_insert_eq. cbn [from_option id].
  set (style := resolve_style (from_option id "classic" (d !! "style"))).
  destruct (is_style_lookup style (resolve_style_in_catalog _)) as [template Ht].
  rewrite (in_catalog_resolves _ _ Ht). reflexivity.
Qed.

(** ** The response determines the request *)

Lemma diverge_append a b x y :
  diverge a b = true -> a ++ x <> b ++ y.
Proof.
  revert b. induction a as [| c a IH]; intros [| c' b] H; try discriminate.
  cbn [diverge] in H. cbn [String.append]. intros [= Hc Hrest].
  subst c'. rewrite Ascii.eqb_refl in H. exact (IH b H Hrest).
Qed.

Lemma append_length (a b : string) :
  String.length (a ++ b) = String.length a + String.length b.
Proof. induction a as [| c a IH]; cbn; [reflexivity | now rewrite IH]. Qed.

Lemma append_inv_head (p a b : string) : p ++ a = p ++ b -> a = b.
Proof.
  induction p as [| c p IH]; cbn [String.append]; intros H; [exact H |].
  injection H as H. exact (IH H).
Qed.

Lemma append_inv_tail (a b p : string) : a ++ p = b ++ p -> a = b.
Proof.
  revert b. induction a as [| c a IH]; intros [| c' b] H.
  - reflexivity.
  - apply (f_equal String.length) in H. cbn [String.append] in H.
    cbn [String.length] in H. rewrite append_length in H. lia.
  - apply (f_equal String.length) in H. cbn [String.append] in H.
    cbn [String.length] in H. rewrite append_length in H. lia.
  - cbn [String.append] in H. injection H as -> H. f_equal. exact (IH b H).
Qed.

(** The templates of two different styles part ways before their slot. *)
Lemma catalog_templates_diverge key1 template1 key2 template2 :
  lookup_style key1 JOKE_STYLES = Some template1 ->
  lookup_style key2 JOKE_STYLES = Some template2 ->
  key1 <> key2 ->
  diverge (before_brace template1) (before_brace template2) = true.
Proof.
  intros H1 H2 Hne.
  apply lookup_style_In in H1. apply lookup_style_In in H2.
  unfold JOKE_STYLES in H1, H2. cbn [In] in H1, H2.
  repeat (destruct H1 as [H1 | H1]; [injection H1 as <- <- |]); [.. | destruct H1];
    repeat (destruct H2 as [H2 | H2]; [injection H2 as <- <- |]);
    try (destruct H2); try contradiction; vm_compute; reflexivity.
Qed.

(** X14. The text of a response determines the request up to the
    normalisation of the style: two calls that return the same text were
    given the same topic and resolve to the same style, and so return the
    same response. Different styles never give the same text, whatever the
    topics. *)
Theorem get_prompt_text_determines_request (w1 w2 : World)
  (arguments1 arguments2 : option (gmap string string))
  (r1 r2 : GetPromptResult) :
  returned (get_prompt "dad_joke" arguments1) w1 = Return r1 ->
  returned (get_prompt "dad_joke" arguments2) w2 = Return r2 ->
  text_of r1 = text_of r2 ->
  entry arguments1 "topic" = entry arguments2 "topic"
  /\ resolve_style (from_option id "classic" (entry arguments1 "style"))
     = resolve_style (from_option id "classic" (entry arguments2 "style"))
  /\ r1 = r2.
Proof.
  rewrite !get_prompt_returns.
  destruct (call_cases w1 "dad_joke" arguments1)
    as [(_ & -> & _) | [(_ & _ & -> & _) | (_ & topic1 & t1 & Htopic1 & Ht1 & -> & _)]];
    try discriminate.
  destruct (call_cases w2 "dad_joke" arguments2)
    as [(_ & -> & _) | [(_ & _ & -> & _) | (_ & topic2 & t2 & Htopic2 & Ht2 & -> & _)]];
    try discriminate.
  cbv zeta in *. intros [= <-] [= <-]. cbn [text_of result_messages user_message
    content_text message_content]. intros [= Htext].
  set (style1 := resolve_style (from_option id "classic" (entry arguments1 "style"))) in *.
  set (style2 := resolve_style (from_option id "classic" (entry arguments2 "style"))) in *.
  destruct (String.eqb_spec style1 style2) as [Heq | Hne].
  - rewrite Heq in Ht1. rewrite Ht1 in Ht2. injection Ht2 as <-.
    apply append_inv_head, append_inv_tail in Htext. subst topic2.
    rewrite Htopic1, Htopic2, Heq. repeat split; reflexivity.
  - exfalso. revert Htext. apply diverge_append.
    exact (catalog_templates_diverge _ _ _ _ Ht1 Ht2 Hne).
Qed.

Lemma get_prompt_text_determines_request_witness :
  entry (args_topic_style "cats" "PUN") "topic"
  = entry (Some (<[ "mood" := "sunny" ]> (<[ "style" := "pun" ]> {[ "topic" := "cats" ]})))
      "topic"
  /\ resolve_style (from_option id "classic" (entry (args_topic_style "cats" "PUN") "style"))
     = resolve_style
         (from_option id "classic"
            (entry (Some (<[ "mood" := "sunny" ]>
                            (<[ "style" := "pun" ]> {[ "topic" := "cats" ]})))
               "style"))
  /\ mkGetPromptResult "Dad joke prompt about cats in pun style"
       [user_message
          "You are an expert comedian specializing in puns and wordplay. Create a clever pun-based dad joke about cats that plays on multiple meanings of words. The joke should be groan-worthy but clever, appropriate for all ages."]
     = mkGetPromptResult "Dad joke prompt about cats in pun style"
         [user_message
            "You are an expert comedian specializing in puns and wordplay. Create a clever pun-based dad joke about cats that plays on multiple meanings of words. The joke should be groan-worthy but clever, appropriate for all ages."].
Proof.
  apply (get_prompt_text_determines_request (world0 verbose) (world0 quiet)
           (args_topic_style "cats" "PUN")
           (Some (<[ "mood" := "sunny" ]> (<[ "style" := "pun" ]> {[ "topic" := "cats" ]}))));
    vm_compute; reflexivity.
Defined.

(** X15. Any spelling of a catalog key is honoured as that key: a style
    whose lower-case form is a key of the catalog is resolved to the key,
    named so in the description, and no warning is written. *)
Theorem get_prompt_catalog_style_honoured (w : World) (d : gmap string string)
  (topic style key : string) :
  d !! "topic" = Some topic ->
  d !! "style" = Some style ->
  Str.lower style = key ->
  In key (keys JOKE_STYLES) ->
  (exists text,
     returned (get_prompt "dad_joke" (Some d)) w
     = Return (mkGetPromptResult
                 ("Dad joke prompt about " ++ topic ++ " in " ++ key ++ " style")
                 [user_message text]))
  /\ List.filter is_warning (appended (get_prompt "dad_joke" (Some d)) w) = [].
Proof.
  intros Hgiven Hstyle Hlow Hkey.
  assert (Hcat : is_style key JOKE_STYLES = true).
  { unfold JOKE_STYLES, keys in Hkey. cbn [map fst In] in Hkey.
    repeat (destruct Hkey as [<- | Hkey]; [reflexivity |]). destruct Hkey. }
  assert (Hres : resolve_style (from_option id "classic" (entry (Some d) "style")) = key).
  { cbn [entry]. rewrite Hstyle. cbn [from_option id]. unfold resolve_style.
    rewrite Hlow, Hcat. reflexivity. }
  by_cases w "dad_joke" (Some d);
    [contradiction | cbn [entry] in Htopic; congruence |].
  assert (the_topic = topic) as -> by (cbn [entry] in Htopic; congruence).
  cbn [entry] in *. rewrite Hstyle in *. cbn [from_option id] in *.
  rewrite Hlow, Hcat. cbn [entry from_option id] in Hres. rewrite Hres.
  split; [eexists; reflexivity |].
  flags w; reflexivity.
Qed.

Lemma get_prompt_catalog_style_honoured_witness :
  (exists text,
     returned (get_prompt "dad_joke" (args_topic_style "cats" "Anti-Humor"))
       (world0 verbose)
     = Return (mkGetPromptResult
                 ("Dad joke prompt about " ++ "cats" ++ " in " ++ "anti-humor" ++ " style")
                 [user_message text]))
  /\ List.filter is_warning
       (appended (get_prompt "dad_joke" (args_topic_style "cats" "Anti-Humor"))
          (world0 verbose))
     = [].
Proof.
  apply (get_prompt_catalog_style_honoured (world0 verbose)
           (<[ "style" := "Anti-Humor" ]> {[ "topic" := "cats" ]})
           "cats" "Anti-Humor" "anti-humor");
    [reflexivity | reflexivity | reflexivity |].
  cbn. tauto.
Defined.

(** ** Start-up and shutdown *)

Section StartupFacts.

Import Startup.

Variable dirname : string -> string.
Variable fs_accepts : FsCall -> bool.
Variable serve : UvicornConfig -> ending.

(** X16. However [setup_logging] ends, the logger has the level of the
    settings and none of the handlers it had before; the console handler
    comes first, the file handler follows only when [log_to_file] is set
    and the file could be opened, and every handler has the level of the
    logger and the one formatter the settings choose. *)
Theorem setup_logging_handlers (s : Config.ServerSettings) (existing : Logger) :
  let r := setup_logging dirname fs_accepts s existing in
  logger_level (setup_logger r) = Config.log_level_int s
  /\ map handler_target (logger_handlers (setup_logger r))
     = Stdout :: match setup_end r with
                 | Configured =>
                     if Config.log_to_file s then [LogFile (Config.log_file s)] else []
                 | OSError _ => []
                 end
  /\ Forall (fun h => handler_level h = logger_level (setup_logger r)
                      /\ handler_formatter h = formatter_of s)
       (logger_handlers (setup_logger r))
  /\ r = setup_logging dirname fs_accepts s (setup_logger r).
Proof.
  cbv zeta. unfold setup_logging.
  destruct (Config.log_to_file s);
    [destruct (fs_accepts (makedirs (dirname (Config.log_file s))));
     [destruct (fs_accepts (open_append (Config.log_file s))) |] |];
    cbn; repeat split; repeat constructor.
Qed.


(** X18. Whatever the way serving ends, [main] keeps the log it finds,
    writes the two start-up events first and "Server shutdown complete"
    last, with at most one event in between. *)
Theorem main_brackets_the_log (s : Config.ServerSettings) (log : list Event) :
  exists starting started between,
    snd (main serve s log)
    = (log ++ [starting; started] ++ between
       ++ [mkEvent INFO "Server shutdown complete" [] false])%list
    /\ event_message starting = "Starting Dad Joke MCP Server"
    /\ event_message started = "Server started successfully"
    /\ List.length between <= 1.
Proof.
  unfold main, run_server. cbv zeta.
  destruct (serve _) as [| | type_name message | type_name]; cbn [snd];
    do 2 eexists.
  - exists []. rewrite <- !app_assoc. cbn. repeat split; reflexivity || lia.
  - eexists [_]. rewrite <- !app_assoc. cbn. repeat split; reflexivity || lia.
  - eexists [_]. rewrite <- !app_assoc. cbn. repeat split; reflexivity || lia.
  - exists []. rewrite <- !app_assoc. cbn. repeat split; reflexivity || lia.
Qed.

(** X19. [main] exits with a status only when serving raised an
    [Exception], the status is 1, and then it has logged exactly one error
    event, with the text and the type of the exception and its traceback;
    in every other case, a keyboard interrupt included, it logs no error
    event. *)
Theorem main_exit_status (s : Config.ServerSettings) (log : list Event) :
  let added := skipn (List.length log) (snd (main serve s log)) in
  match fst (main serve s log) with
  | SystemExit code =>
      code = 1%Z
      /\ exists type_name message,
           fst (run_server serve s log) = Exception type_name message
           /\ List.filter is_error_event added
              = [mkEvent ERROR "Server error"
                   [("error", DStr message); ("error_type", DStr type_name)]
                   true]
  | Returns =>
      (fst (run_server serve s log) = Served
       \/ fst (run_server serve s log) = KeyboardInterrupt)
      /\ List.filter is_error_event added = []
  | Propagates type_name =>
      fst (run_server serve s log) = BaseException type_name
      /\ List.filter is_error_event added = []
  end.
Proof.
  cbv zeta. unfold main, run_server. cbv zeta.
  destruct (serve _) as [| | type_name message | type_name]; cbn [fst snd];
    rewrite <- ?app_assoc, skipn_length_app; cbn; eauto 6.
Qed.

(** X20. The endpoint [run_server] announces is the one it serves: the
    host and the port in the announcement are those of the configuration
    handed to uvicorn, the path is the path of both routes, one for GET and
    one for POST, and the level handed to uvicorn is the lower-case name of
    the configured level. The announcement is written before serving
    starts, however serving ends. *)
Theorem run_server_announces_what_it_serves (s : Config.ServerSettings)
  (log : list Event) :
  exists config path,
    (forall serve', fst (run_server serve' s log) = serve' config)
    /\ last (snd (run_server serve s log))
       = Some (mkEvent INFO "Server started successfully"
                 [("endpoint",
                   DStr ("http://" ++ config_host config ++ ":"
                         ++ str_int (config_port config) ++ path));
                  ("status", DStr "ready")]
                 false)
    /\ map route_path (app_routes (config_app config)) = [path; path]
    /\ map route_methods (app_routes (config_app config)) = [["GET"]; ["POST"]]
    /\ config_host config = Config.host s
    /\ config_port config = Config.port s
    /\ config_log_level config = Str.lower (Config.level_name (Config.log_level s))
    /\ In (config_log_level config) ["debug"; "info"; "warning"; "error"; "critical"].
Proof.
  unfold run_server. cbv zeta. do 2 eexists.
  split; [intro serve'; reflexivity |]. cbn [snd].
  split; [rewrite last_snoc; reflexivity |].
  cbn [config_app app_routes map route_path route_methods config_host config_port
       config_log_level].
  do 5 (split; [reflexivity |]).
  destruct (Config.log_level s); cbn; tauto.
Qed.

End StartupFacts.
